(** * trading_system: the tool registry, its dispatcher and its formatters

    A shallow embedding of [backend/mcp_server/tools.py].

    - Python [str] values are sequences of Unicode code points ([pystr]);
      literals of the source are written [u "..."] and decoded from UTF-8.
    - Python [float] values are IEEE-754 binary64 numbers, modelled by the
      executable specification [spec_float] with [prec = 53], [emax = 1024];
      [format(x, ".2f")] is the correctly rounded (ties to even) decimal
      rendering of the exact binary value.
    - Python [int] values are unbounded ([Z]); turning one of more than 4300
      digits into text raises, as CPython does by default since 3.11.
    - A raised exception is a value of [result]; an [await] of a collaborator
      is a node of the tree [tool_io], which [run] interprets against the
      answers of the collaborators. *)

From Stdlib Require Import ZArith NArith List String Ascii Bool Lia.
From Stdlib Require Import SpecFloat.
From stdpp Require Import base option list gmap.

Local Open Scope Z_scope.

(** ** Python strings *)

Module PyStr.

(** A [str] is a list of code points. *)
Abbreviation pystr := (list N).

(** UTF-8 decoding, used for the literals of the source.  [need] is the
    number of continuation bytes still expected, [pend] the bits read. *)
Fixpoint utf8_dec (pend : N) (need : nat) (bs : list N) : pystr :=
  match bs with
  | [] => []
  | b :: bs' =>
      match need with
      | S n =>
          let v := (pend * 64 + b mod 64)%N in
          match n with
          | O => v :: utf8_dec 0%N O bs'
          | S _ => utf8_dec v n bs'
          end
      | O =>
          if (b <? 128)%N then b :: utf8_dec 0%N O bs'
          else if (b <? 224)%N then utf8_dec (b mod 32)%N 1 bs'
          else if (b <? 240)%N then utf8_dec (b mod 16)%N 2 bs'
          else utf8_dec (b mod 8)%N 3 bs'
      end
  end.

Definition u (s : string) : pystr :=
  utf8_dec 0%N O (map N_of_ascii (list_ascii_of_string s)).

(** The bytes of a [str] on the wire. *)
Definition utf8_enc1 (c : N) : list N :=
  if (c <? 128)%N then [c]
  else if (c <? 2048)%N then [192 + c / 64; 128 + c mod 64]%N
  else if (c <? 65536)%N then
    [224 + c / 4096; 128 + (c / 64) mod 64; 128 + c mod 64]%N
  else [240 + c / 262144; 128 + (c / 4096) mod 64;
        128 + (c / 64) mod 64; 128 + c mod 64]%N.

Definition utf8_encode (s : pystr) : list N := flat_map utf8_enc1 s.

(** [sep.join(parts)] *)
Fixpoint join (sep : pystr) (parts : list pystr) : pystr :=
  match parts with
  | [] => []
  | [p] => p
  | p :: ps => p ++ sep ++ join sep ps
  end.

(** [s[:n]] for a non-negative [n]. *)
Definition slice_to (n : nat) (s : pystr) : pystr := firstn n s.

(** [c * n] for a one-character string [c]. *)
Definition repeat_char (c : string) (n : nat) : pystr :=
  concat (repeat (u c) n).

(** [str.isspace] on one code point: the code points whose bidirectional
    class is WS, B or S, or whose category is Zs. *)
Definition py_isspace (c : N) : bool :=
  ((9 <=? c) && (c <=? 13) || (28 <=? c) && (c <=? 32)
   || (c =? 133) || (c =? 160) || (c =? 5760)
   || (8192 <=? c) && (c <=? 8202)
   || (c =? 8232) || (c =? 8233) || (c =? 8239) || (c =? 8287)
   || (c =? 12288))%N.

Fixpoint lstrip (s : pystr) : pystr :=
  match s with
  | [] => []
  | c :: s' => if py_isspace c then lstrip s' else s
  end.

Definition rstrip (s : pystr) : pystr := rev (lstrip (rev s)).

(** [s.strip()] *)
Definition py_strip (s : pystr) : pystr := rstrip (lstrip s).

(** The part of the Unicode character database that [str.upper] and
    [repr] consult for code points outside ASCII.  The full upper-case
    mapping of a code point is never empty: it is given by its first code
    point and the ones that follow. *)
Record UnicodeData := {
  uni_upper : N -> N * list N;
  uni_printable : N -> bool
}.

(** A database that leaves every code point outside ASCII unchanged. *)
Definition ascii_only : UnicodeData :=
  {| uni_upper := fun c => (c, []); uni_printable := fun _ => true |}.

Section WithUnicode.
Context (U : UnicodeData).

Definition upper_char (c : N) : pystr :=
  if (c <? 128)%N then
    if ((97 <=? c) && (c <=? 122))%N then [(c - 32)%N] else [c]
  else let '(c1, cs) := uni_upper U c in c1 :: cs.

(** [s.upper()] *)
Definition py_upper (s : pystr) : pystr := flat_map upper_char s.

Definition hex_digit (n : N) : N :=
  if (n <? 10)%N then (48 + n)%N else (87 + n)%N.

Fixpoint hex_fixed (width : nat) (n : N) : pystr :=
  match width with
  | O => []
  | S w => hex_fixed w (n / 16)%N ++ [hex_digit (n mod 16)%N]
  end.

Definition repr_char (quote : N) (c : N) : pystr :=
  if ((c =? quote) || (c =? 92))%N then [92%N; c]
  else if (c =? 9)%N then u "\t"
  else if (c =? 10)%N then u "\n"
  else if (c =? 13)%N then u "\r"
  else if ((c <? 32) || (c =? 127))%N then u "\x" ++ hex_fixed 2 c
  else if (c <? 127)%N then [c]
  else if uni_printable U c then [c]
  else if (c <=? 255)%N then u "\x" ++ hex_fixed 2 c
  else if (c <=? 65535)%N then u "\u" ++ hex_fixed 4 c
  else u "\U" ++ hex_fixed 8 c.

Definition has_char (c : N) (s : pystr) : bool := existsb (N.eqb c) s.

(** [repr(s)] for a [str]: single quotes unless the text has a single
    quote and no double quote. *)
Definition repr_str (s : pystr) : pystr :=
  let quote := if has_char 39%N s && negb (has_char 34%N s)
               then 34%N else 39%N in
  quote :: flat_map (repr_char quote) s ++ [quote].

(** [str(l)] for a list of [str]. *)
Definition str_of_str_list (l : list pystr) : pystr :=
  u "[" ++ join (u ", ") (map repr_str l) ++ u "]".
End WithUnicode.

End PyStr.
Export PyStr.

(** ** Python numbers *)

Module PyNum.

(** Decimal digits of a non-negative integer. *)
Fixpoint digits_of_uint (d : Decimal.uint) : pystr :=
  match d with
  | Decimal.Nil => []
  | Decimal.D0 d' => 48%N :: digits_of_uint d'
  | Decimal.D1 d' => 49%N :: digits_of_uint d'
  | Decimal.D2 d' => 50%N :: digits_of_uint d'
  | Decimal.D3 d' => 51%N :: digits_of_uint d'
  | Decimal.D4 d' => 52%N :: digits_of_uint d'
  | Decimal.D5 d' => 53%N :: digits_of_uint d'
  | Decimal.D6 d' => 54%N :: digits_of_uint d'
  | Decimal.D7 d' => 55%N :: digits_of_uint d'
  | Decimal.D8 d' => 56%N :: digits_of_uint d'
  | Decimal.D9 d' => 57%N :: digits_of_uint d'
  end.

Definition digits_of_nonneg (z : Z) : pystr :=
  match z with
  | Zpos p => digits_of_uint (Pos.to_uint p)
  | _ => u "0"
  end.

(** The thousands separator of the [","] format option, on the digits
    taken from the right. *)
Fixpoint commas_rev (n : nat) (l : pystr) : pystr :=
  match l with
  | [] => []
  | d :: l' =>
      match n with
      | 3%nat => 44%N :: d :: commas_rev 1 l'
      | _ => d :: commas_rev (S n) l'
      end
  end.

Definition group_thousands (ds : pystr) : pystr :=
  rev (commas_rev 0 (rev ds)).

Definition sign_str (negative : bool) : pystr :=
  if negative then u "-" else [].

(** [str(z)] and [format(z, ",")] for an [int]. *)
Definition str_of_int (z : Z) : pystr :=
  sign_str (z <? 0) ++ digits_of_nonneg (Z.abs z).

Definition format_int_grouped (z : Z) : pystr :=
  sign_str (z <? 0) ++ group_thousands (digits_of_nonneg (Z.abs z)).

(** *** binary64 *)

Abbreviation pyfloat := spec_float.

Definition prec : Z := 53.
Definition emax : Z := 1024.

(** [float(z)] for an integer small enough not to overflow. *)
Definition float_of_Z (z : Z) : pyfloat := binary_normalize prec emax z 0 false.

Definition float_mul : pyfloat -> pyfloat -> pyfloat := SFmul prec emax.
Definition float_div : pyfloat -> pyfloat -> pyfloat := SFdiv prec emax.

(** A decimal literal [n / 10^k] of the source or of a test: the binary64
    number nearest to it (both operands are exact, so the division rounds
    the exact quotient once). *)
Definition float_lit (n : Z) (k : nat) : pyfloat :=
  float_div (float_of_Z n) (float_of_Z (10 ^ Z.of_nat k)).

(** [bool(x)]: every float but the two zeros is true, NaN included. *)
Definition float_truthy (x : pyfloat) : bool :=
  match x with
  | S754_zero _ => false
  | _ => true
  end.

(** [x >= 0] *)
Definition float_ge0 (x : pyfloat) : bool :=
  match SFcompare x (S754_zero false) with
  | Some Gt | Some Eq => true
  | _ => false
  end.

(** [a / b] rounded to the nearest integer, ties to even ([0 <= a], [0 < b]). *)
Definition div_half_even (a b : Z) : Z :=
  let q := a / b in
  let r := a mod b in
  match 2 * r ?= b with
  | Lt => q
  | Eq => if Z.even q then q else q + 1
  | Gt => q + 1
  end.

(** [|x| * 10^d] rounded to an integer, for [|x| = m * 2^e]. *)
Definition scaled (d : nat) (m : positive) (e : Z) : Z :=
  if 0 <=? e then Zpos m * 2 ^ e * 10 ^ Z.of_nat d
  else div_half_even (Zpos m * 10 ^ Z.of_nat d) (2 ^ (- e)).

Definition pad_zeros (d : nat) (ds : pystr) : pystr :=
  repeat 48%N (d - length ds) ++ ds.

(** The digits of [n / 10^d] with [d] decimals. *)
Definition fixed_digits (grouped : bool) (d : nat) (n : Z) : pystr :=
  let ip := digits_of_nonneg (n / 10 ^ Z.of_nat d) in
  (if grouped then group_thousands ip else ip)
  ++ match d with
     | O => []
     | S _ => u "." ++ pad_zeros d (digits_of_nonneg (n mod 10 ^ Z.of_nat d))
     end.

(** [format(x, ".<d>f")] and, with [grouped], [format(x, ",.<d>f")]. *)
Definition format_fixed (grouped : bool) (d : nat) (x : pyfloat) : pystr :=
  match x with
  | S754_nan => u "nan"
  | S754_infinity s => sign_str s ++ u "inf"
  | S754_zero s => sign_str s ++ fixed_digits grouped d 0
  | S754_finite s m e => sign_str s ++ fixed_digits grouped d (scaled d m e)
  end.

End PyNum.
Export PyNum.

(** ** Exceptions *)

Inductive exn :=
| TypeError (msg : pystr)
| ValueError (msg : pystr)
| AttributeError (msg : pystr).

(** The outcome of a Python expression: a value, or a raised exception. *)
Inductive result (A : Type) :=
| Ok (a : A)
| Raise (e : exn).
Arguments Ok {A} a.
Arguments Raise {A} e.

#[global] Instance result_ret : MRet result := fun A a => Ok a.
#[global] Instance result_bind : MBind result := fun A B f m =>
  match m with
  | Ok a => f a
  | Raise e => Raise e
  end.

(** ** The data model *)

(** Modelled from the spec: the record types [NewsItem] and [ScrapeResponse]
    (the spec's MarketDataResult) are declared in
    [backend/services/scraper], outside the sources at hand.  The fields are
    the attributes the formatters read; every field the spec calls optional
    is an [option]; [volume] and [analyst_count] are integers and the other
    numeric fields are floats. *)
Record NewsItem := {
  title : pystr;
  publisher : pystr;
  published_at : option pystr;
  link : pystr
}.

Record ScrapeResponse := {
  symbol : pystr;
  company_name : option pystr;
  sector : option pystr;
  industry : option pystr;
  description : option pystr;
  price : option pyfloat;
  change : option pyfloat;
  change_pct : option pyfloat;
  day_low : option pyfloat;
  day_high : option pyfloat;
  prev_close : option pyfloat;
  week_52_low : option pyfloat;
  week_52_high : option pyfloat;
  volume : option Z;
  ma_50 : option pyfloat;
  ma_200 : option pyfloat;
  market_cap : option pyfloat;
  pe_ratio : option pyfloat;
  forward_pe : option pyfloat;
  eps : option pyfloat;
  book_value : option pyfloat;
  price_to_book : option pyfloat;
  dividend_yield : option pyfloat;
  beta : option pyfloat;
  roe : option pyfloat;
  profit_margin : option pyfloat;
  debt_to_equity : option pyfloat;
  current_ratio : option pyfloat;
  recommendation : option pystr;
  analyst_count : option Z;
  target_mean_price : option pyfloat;
  target_high_price : option pyfloat;
  target_low_price : option pyfloat;
  news : list NewsItem;
  scraped_ok : bool;
  error : option pystr;
  timestamp : pystr
}.

(** ** Truthiness, [or], and formatting of optional values *)

Definition is_not_none {A} (o : option A) : bool :=
  match o with Some _ => true | None => false end.

(** [bool(x)] for an optional [str], [int], [float]. *)
Definition truthy_str (o : option pystr) : bool :=
  match o with Some (_ :: _) => true | _ => false end.

Definition truthy_int (o : option Z) : bool :=
  match o with Some z => negb (z =? 0) | None => false end.

Definition truthy_float (o : option pyfloat) : bool :=
  match o with Some x => float_truthy x | None => false end.

(** [x or default] for an optional [str]. *)
Definition str_or (o : option pystr) (default : pystr) : pystr :=
  match o with
  | Some (c :: s) => c :: s
  | _ => default
  end.

Definition none_format_error : exn :=
  TypeError (u "unsupported format string passed to NoneType.__format__").

Definition none_compare_error : exn :=
  TypeError (u "'>=' not supported between instances of 'NoneType' and 'int'").

Definition none_operand_error (op ty : string) : exn :=
  TypeError (u "unsupported operand type(s) for " ++ u op
             ++ u ": 'NoneType' and '" ++ u ty ++ u "'").

Definition none_attribute_error (attr : string) : exn :=
  AttributeError (u "'NoneType' object has no attribute '" ++ u attr ++ u "'").

Definition none_subscript_error : exn :=
  TypeError (u "'NoneType' object is not subscriptable").

(** [f"{x:.<d>f}"], [f"{x:,.<d>f}"] and [f"{z:,}"]: a format specification
    applied to [None] raises. *)
Definition fmt_f (grouped : bool) (d : nat) (o : option pyfloat) : result pystr :=
  match o with
  | Some x => Ok (format_fixed grouped d x)
  | None => Raise none_format_error
  end.

(** CPython (3.11 and later, with the default setting) refuses to turn
    an [int] of more than 4300 decimal digits into text. *)
Definition int_max_str_digits : Z := 4300.

Definition int_str_error : exn :=
  ValueError (u "Exceeds the limit (4300 digits) for integer string conversion; "
              ++ u "use sys.set_int_max_str_digits() to increase the limit").

Definition int_printable (z : Z) : bool :=
  Z.of_nat (length (digits_of_nonneg (Z.abs z))) <=? int_max_str_digits.

(** [str(z)] and [format(z, ",")] of an [int], with that limit. *)
Definition int_to_str (z : Z) : result pystr :=
  if int_printable z then Ok (str_of_int z) else Raise int_str_error.

Definition int_to_str_grouped (z : Z) : result pystr :=
  if int_printable z then Ok (format_int_grouped z) else Raise int_str_error.

Definition fmt_int_grouped (o : option Z) : result pystr :=
  match o with
  | Some z => int_to_str_grouped z
  | None => Raise none_format_error
  end.

(** [f"{x}"] without a specification is [str(x)], and [str(None)] is the
    text [None]. *)
Definition fmt_str (o : option pystr) : pystr :=
  match o with Some s => s | None => u "None" end.

Definition fmt_int (o : option Z) : result pystr :=
  match o with Some z => int_to_str z | None => Ok (u "None") end.

Definition ge0 (o : option pyfloat) : result bool :=
  match o with
  | Some x => Ok (float_ge0 x)
  | None => Raise none_compare_error
  end.

(** [x * 100] and [x / 1e7] *)
Definition times_100 (o : option pyfloat) : result (option pyfloat) :=
  match o with
  | Some x => Ok (Some (float_mul x (float_of_Z 100)))
  | None => Raise (none_operand_error "*" "int")
  end.

Definition over_1e7 (o : option pyfloat) : result (option pyfloat) :=
  match o with
  | Some x => Ok (Some (float_div x (float_of_Z 10000000)))
  | None => Raise (none_operand_error "/" "float")
  end.

Definition strip_opt (o : option pystr) : result pystr :=
  match o with
  | Some s => Ok (py_strip s)
  | None => Raise (none_attribute_error "strip")
  end.

Definition upper_opt (U : UnicodeData) (o : option pystr) : result pystr :=
  match o with
  | Some s => Ok (py_upper U s)
  | None => Raise (none_attribute_error "upper")
  end.

Definition slice_opt (n : nat) (o : option pystr) : result pystr :=
  match o with
  | Some s => Ok (slice_to n s)
  | None => Raise none_subscript_error
  end.

Definition nl : pystr := [10%N].

(** ** The formatters *)

(** [enumerate(l, start)] *)
Fixpoint enumerate {A} (start : Z) (l : list A) : list (Z * A) :=
  match l with
  | [] => []
  | x :: l' => (start, x) :: enumerate (start + 1) l'
  end.

(** A [for] loop over [l] that threads the state [s] and stops at the first
    exception. *)
Fixpoint for_each {A S} (l : list A) (body : S -> A -> result S) (s : S)
  : result S :=
  match l with
  | [] => Ok s
  | x :: l' => s' ← body s x; for_each l' body s'
  end.

Definition footer (leading : pystr) (r : ScrapeResponse) : pystr :=
  leading ++ u "[Source: Yahoo Finance  |  As of: "
  ++ slice_to 19 (timestamp r) ++ u "]".

(** The [if r.price is not None:] statement of [_fmt_price], on the list
    [lines] built so far. *)
Definition price_line (r : ScrapeResponse) (lines : list pystr)
  : result (list pystr) :=
  if is_not_none (price r) then
    change_str ←
      (if is_not_none (change r) && is_not_none (change_pct r) then
         nonneg ← ge0 (change r);
         let sign := if nonneg : bool then u "+" else [] in
         c ← fmt_f false 2 (change r);
         p ← fmt_f false 2 (change_pct r);
         Ok (u "  |  Change: " ++ sign ++ u "₹" ++ c
             ++ u " (" ++ sign ++ p ++ u "%)")
       else Ok []);
    p ← fmt_f true 2 (price r);
    Ok (lines ++ [u "Price: ₹" ++ p ++ change_str])
  else Ok lines.

(** The [if r.day_low is not None and r.day_high is not None:] statement. *)
Definition day_range_line (r : ScrapeResponse) (lines : list pystr)
  : result (list pystr) :=
  if is_not_none (day_low r) && is_not_none (day_high r) then
    prev ←
      (if truthy_float (prev_close r) then
         p ← fmt_f true 2 (prev_close r);
         Ok (u "  |  Prev Close: ₹" ++ p)
       else Ok []);
    lo ← fmt_f true 2 (day_low r);
    hi ← fmt_f true 2 (day_high r);
    Ok (lines ++ [u "Day Range: ₹" ++ lo ++ u " – ₹" ++ hi ++ prev])
  else Ok lines.

(** The [if r.week_52_low is not None and r.week_52_high is not None:]
    statement. *)
Definition week_52_line (r : ScrapeResponse) (lines : list pystr)
  : result (list pystr) :=
  if is_not_none (week_52_low r) && is_not_none (week_52_high r) then
    lo ← fmt_f true 2 (week_52_low r);
    hi ← fmt_f true 2 (week_52_high r);
    Ok (lines ++ [u "52W Range: ₹" ++ lo ++ u " – ₹" ++ hi])
  else Ok lines.

(** One entry of [parts]: [if guard: parts.append(label + value)]. *)
Definition part (guard : bool) (label : string) (value : result pystr)
    (parts : list pystr) : result (list pystr) :=
  if guard then v ← value; Ok (parts ++ [u label ++ v]) else Ok parts.

(** The list [parts] of [_fmt_price]. *)
Definition volume_ma_parts (r : ScrapeResponse) : result (list pystr) :=
  let parts : list pystr := [] in
  parts ← part (truthy_int (volume r)) "Volume: "
            (fmt_int_grouped (volume r)) parts;
  parts ← part (truthy_float (ma_50 r)) "MA50: ₹"
            (fmt_f true 2 (ma_50 r)) parts;
  part (truthy_float (ma_200 r)) "MA200: ₹" (fmt_f true 2 (ma_200 r)) parts.

(** The first line of [_fmt_price]. *)
Definition price_header (r : ScrapeResponse) : pystr :=
  let name := str_or (company_name r) (symbol r) in
  symbol r ++ u " (" ++ name ++ u ") | NSE".

(** The list [lines] of [_fmt_price] when it returns. *)
Definition _fmt_price_lines (r : ScrapeResponse) : result (list pystr) :=
  let lines : list pystr := [] in
  let lines := lines ++ [price_header r] in
  lines ← price_line r lines;
  lines ← day_range_line r lines;
  lines ← week_52_line r lines;
  parts ← volume_ma_parts r;
  let lines :=
    match parts with
    | [] => lines
    | _ :: _ => lines ++ [join (u "  |  ") parts]
    end in
  Ok (lines ++ [footer [] r]).

(** [_fmt_price(r)]: the concise price summary. *)
Definition _fmt_price (r : ScrapeResponse) : result pystr :=
  lines ← _fmt_price_lines r; Ok (join nl lines).

(** One fundamentals line: [if guard: fund.append(label + value + unit)]. *)
Definition fund_line (guard : bool) (label : string) (value : result pystr)
    (unit : string) (fund : list pystr) : result (list pystr) :=
  if guard then v ← value; Ok (fund ++ [u label ++ v ++ u unit]) else Ok fund.

(** The list [fund] of [_fmt_analysis]. *)
Definition fund_lines (r : ScrapeResponse) : result (list pystr) :=
  let fund : list pystr := [] in
  fund ← fund_line (truthy_float (market_cap r)) "Market Cap: ₹"
           (cr ← over_1e7 (market_cap r); fmt_f true 0 cr) " Cr" fund;
  fund ← fund_line (truthy_float (pe_ratio r)) "P/E (TTM): "
           (fmt_f false 1 (pe_ratio r)) "" fund;
  fund ← fund_line (truthy_float (forward_pe r)) "Forward P/E: "
           (fmt_f false 1 (forward_pe r)) "" fund;
  fund ← fund_line (truthy_float (eps r)) "EPS (TTM): ₹"
           (fmt_f false 2 (eps r)) "" fund;
  fund ← fund_line (truthy_float (book_value r)) "Book Value: ₹"
           (fmt_f false 2 (book_value r)) "" fund;
  fund ← fund_line (truthy_float (price_to_book r)) "P/B Ratio: "
           (fmt_f false 2 (price_to_book r)) "x" fund;
  fund ← fund_line (truthy_float (dividend_yield r)) "Dividend Yield: "
           (y ← times_100 (dividend_yield r); fmt_f false 2 y) "%" fund;
  fund ← fund_line (truthy_float (beta r)) "Beta: "
           (fmt_f false 2 (beta r)) "" fund;
  fund ← fund_line (truthy_float (roe r)) "ROE: "
           (y ← times_100 (roe r); fmt_f false 1 y) "%" fund;
  fund ← fund_line (truthy_float (profit_margin r)) "Net Margin: "
           (y ← times_100 (profit_margin r); fmt_f false 1 y) "%" fund;
  fund ← fund_line (truthy_float (debt_to_equity r)) "D/E Ratio: "
           (fmt_f false 2 (debt_to_equity r)) "" fund;
  fund_line (truthy_float (current_ratio r)) "Current Ratio: "
           (fmt_f false 2 (current_ratio r)) "" fund.

(** The body of the news loop: two lines per item.  The counter [i] of
    [enumerate(r.news[:5], 1)] is at most 5, so its text is never refused. *)
Definition news_entry (sections : list pystr) (entry : Z * NewsItem)
  : result (list pystr) :=
  let '(i, item) := entry in
  pub_date ←
    (if truthy_str (published_at item) then slice_opt 10 (published_at item)
     else Ok (u "N/A"));
  let sections := sections ++ [str_of_int i ++ u ". " ++ title item] in
  Ok (sections ++ [u "   " ++ publisher item ++ u "  |  " ++ pub_date
                   ++ u "  |  " ++ link item]).

(** The [if r.news:] statement of [_fmt_analysis], on the list [sections]
    built so far. *)
Definition news_lines (r : ScrapeResponse) (sections : list pystr)
  : result (list pystr) :=
  match news r with
  | [] => Ok sections
  | _ :: _ =>
      let sections := sections ++ [nl ++ u "── RECENT NEWS ──"] in
      for_each (enumerate 1 (firstn 5 (news r))) news_entry sections
  end.

Section Formatters.
Context (U : UnicodeData).

(** The list [analyst] of [_fmt_analysis]. *)
Definition analyst_lines (r : ScrapeResponse) : result (list pystr) :=
  let analyst : list pystr := [] in
  analyst ←
    (if truthy_str (recommendation r) then
       count ←
         (if truthy_int (analyst_count r) then
            c ← fmt_int (analyst_count r);
            Ok (u " (" ++ c ++ u " analysts)")
          else Ok []);
       rec ← upper_opt U (recommendation r);
       Ok (analyst ++ [u "Consensus: " ++ rec ++ count])
     else Ok analyst);
  if truthy_float (target_mean_price r) then
    mean ← fmt_f true 2 (target_mean_price r);
    high ← fmt_f true 2 (target_high_price r);
    low ← fmt_f true 2 (target_low_price r);
    Ok (analyst ++ [u "Price Targets:  Mean ₹" ++ mean
                    ++ u "  |  High ₹" ++ high
                    ++ u "  |  Low ₹" ++ low])
  else Ok analyst.

(** The list [sections] of [_fmt_analysis] when it returns. *)
Definition _fmt_analysis_sections (r : ScrapeResponse)
  : result (list pystr) :=
  let sections : list pystr := [] in
  let name := str_or (company_name r) (symbol r) in
  let sections := sections ++ [repeat_char "=" 60] in
  let sections := sections ++ [symbol r ++ u "  —  " ++ name] in
  let sections := sections ++ [repeat_char "=" 60] in
  let sections :=
    if truthy_str (sector r) || truthy_str (industry r)
    then sections ++ [u "Sector: " ++ str_or (sector r) (u "N/A")
                      ++ u "  |  Industry: "
                      ++ str_or (industry r) (u "N/A")]
    else sections in
  sections ←
    (if truthy_str (description r) then
       d ← strip_opt (description r);
       Ok (sections ++ [nl ++ u "Business: " ++ d])
     else Ok sections);
  let sections := sections ++ [nl ++ u "── PRICE ──"] in
  p ← _fmt_price r;
  let sections := sections ++ [p] in
  fund ← fund_lines r;
  let sections :=
    match fund with
    | [] => sections
    | _ :: _ => (sections ++ [nl ++ u "── FUNDAMENTALS ──"]) ++ fund
    end in
  analyst ← analyst_lines r;
  let sections :=
    match analyst with
    | [] => sections
    | _ :: _ => (sections ++ [nl ++ u "── ANALYST VIEW ──"]) ++ analyst
    end in
  sections ← news_lines r sections;
  Ok (sections ++ [footer nl r]).

(** [_fmt_analysis(r)]: the detailed multi-section analysis. *)
Definition _fmt_analysis (r : ScrapeResponse) : result pystr :=
  sections ← _fmt_analysis_sections r; Ok (join nl sections).

End Formatters.

(** ** The tool registry *)

Record SchemaProperty := {
  prop_type : pystr;
  prop_description : pystr
}.

Record InputSchema := {
  schema_type : pystr;
  properties : list (pystr * SchemaProperty);
  required : list pystr
}.

Record Tool := {
  name : pystr;
  tool_description : pystr;
  inputSchema : InputSchema
}.

Definition TOOLS : list Tool := [
  {| name := u "get_stock_price";
     tool_description :=
       u "Get the current market price and basic trading stats for an NSE-listed stock. "
       ++ u "Returns price, day high/low, 52-week range, volume, and moving averages. "
       ++ u "Use this for quick price checks.";
     inputSchema :=
       {| schema_type := u "object";
          properties :=
            [(u "symbol",
              {| prop_type := u "string";
                 prop_description :=
                   u "NSE stock symbol (e.g. 'TCS', 'RELIANCE', 'HDFCBANK'). "
                   ++ u "Do NOT add .NS — it is added automatically." |})];
          required := [u "symbol"] |} |};
  {| name := u "get_stock_analysis";
     tool_description :=
       u "Get a comprehensive stock analysis for an NSE-listed company. "
       ++ u "Includes price data, fundamentals (P/E, EPS, market cap, ROE, D/E, margins), "
       ++ u "analyst consensus (rating + price targets), and the 5 most recent news headlines. "
       ++ u "Use this when the user asks for a full stock overview or research.";
     inputSchema :=
       {| schema_type := u "object";
          properties :=
            [(u "symbol",
              {| prop_type := u "string";
                 prop_description :=
                   u "NSE stock symbol (e.g. 'TCS', 'RELIANCE', 'HDFCBANK')." |})];
          required := [u "symbol"] |} |};
  {| name := u "scrape_url";
     tool_description :=
       u "Fetch any public web URL and return clean plain-text content, "
       ++ u "with all HTML tags, scripts, ads, and navigation stripped out. "
       ++ u "Useful for reading financial news articles, analyst reports, "
       ++ u "NSE/BSE announcements, or any web page the user provides.";
     inputSchema :=
       {| schema_type := u "object";
          properties :=
            [(u "url",
              {| prop_type := u "string";
                 prop_description :=
                   u "Fully-qualified URL to fetch, e.g. 'https://www.moneycontrol.com/...'" |})];
          required := [u "url"] |} |}
].

(** ** Argument values *)

(** The values a decoded JSON argument mapping can hold. *)
#[local] Set Warnings "-register-all".
Inductive pyval :=
| VNone
| VBool (b : bool)
| VInt (z : Z)
| VFloat (x : pyfloat)
| VStr (s : pystr)
| VList (l : list pyval)
| VDict (d : list (pystr * pyval)).

#[local] Set Warnings "register-all".

(** [not l] for a sequence. *)
Definition is_empty {A} (l : list A) : bool :=
  match l with [] => true | _ :: _ => false end.

(** [bool(v)] *)
Definition truthy (v : pyval) : bool :=
  match v with
  | VNone => false
  | VBool b => b
  | VInt z => negb (z =? 0)
  | VFloat x => float_truthy x
  | VStr s => negb (is_empty s)
  | VList l => negb (is_empty l)
  | VDict d => negb (is_empty d)
  end.

Definition type_name (v : pyval) : pystr :=
  match v with
  | VNone => u "NoneType"
  | VBool _ => u "bool"
  | VInt _ => u "int"
  | VFloat _ => u "float"
  | VStr _ => u "str"
  | VList _ => u "list"
  | VDict _ => u "dict"
  end.

(** [arguments.get(key)] *)
Definition dict_get (arguments : gmap pystr pyval) (key : pystr) : pyval :=
  default VNone (arguments !! key).

(** [v or d] *)
Definition py_or (v d : pyval) : pyval := if truthy v then v else d.

(** [v.strip()]: only a [str] has the method. *)
Definition val_strip (v : pyval) : result pystr :=
  match v with
  | VStr s => Ok (py_strip s)
  | _ => Raise (AttributeError
                  (u "'" ++ type_name v ++ u "' object has no attribute 'strip'"))
  end.

(** ** The dispatcher *)

(** A coroutine of the dispatcher: it returns, raises, or awaits one of the
    two collaborators and goes on with the answer. *)
Inductive tool_io (A : Type) :=
| Return (a : A)
| Throw (e : exn)
| AwaitScrapeOne (symbol : pystr) (include_news include_fundamentals : bool)
    (k : ScrapeResponse -> tool_io A)
| AwaitScrapeUrl (url : pystr) (k : pystr -> tool_io A).
Arguments Return {A} a.
Arguments Throw {A} e.
Arguments AwaitScrapeOne {A} symbol include_news include_fundamentals k.
Arguments AwaitScrapeUrl {A} url k.

Fixpoint tool_io_bind {A B} (f : A -> tool_io B) (m : tool_io A) : tool_io B :=
  match m with
  | Return a => f a
  | Throw e => Throw e
  | AwaitScrapeOne s n fu k => AwaitScrapeOne s n fu (fun r => tool_io_bind f (k r))
  | AwaitScrapeUrl url k => AwaitScrapeUrl url (fun t => tool_io_bind f (k t))
  end.

#[global] Instance tool_io_ret : MRet tool_io := fun A a => Return a.
#[global] Instance tool_io_mbind : MBind tool_io := fun A B f m => tool_io_bind f m.

(** An expression that may raise, inside a coroutine. *)
Definition lift {A} (x : result A) : tool_io A :=
  match x with
  | Ok a => Return a
  | Raise e => Throw e
  end.

(** [await _market.scrape_one(symbol, include_news=.., include_fundamentals=..)] *)
Definition scrape_one (symbol : pystr) (include_news include_fundamentals : bool)
  : tool_io ScrapeResponse :=
  AwaitScrapeOne symbol include_news include_fundamentals Return.

(** [await _scrape_url(url)] *)
Definition _scrape_url (url : pystr) : tool_io pystr :=
  AwaitScrapeUrl url Return.

(** [available = [t.name for t in TOOLS]] *)
Definition available : list pystr := map name TOOLS.

Section Dispatcher.
Context (U : UnicodeData).

Definition unknown_tool (name : pystr) : exn :=
  ValueError (u "Unknown tool: '" ++ name ++ u "'. Available tools: "
              ++ str_of_str_list U available).

(** [call_tool(name, arguments)] *)
Definition call_tool (name : pystr) (arguments : gmap pystr pyval)
  : tool_io pystr :=
  if decide (name = u "get_stock_price") then
    s ← lift (val_strip (py_or (dict_get arguments (u "symbol")) (VStr [])));
    let symbol := py_upper U s in
    if is_empty symbol then
      Return (u "Error: 'symbol' parameter is required.")
    else
      result ← scrape_one symbol false false;
      if negb (scraped_ok result) then
        Return (u "Could not fetch price for " ++ symbol ++ u ": "
                ++ fmt_str (error result))
      else lift (_fmt_price result)
  else if decide (name = u "get_stock_analysis") then
    s ← lift (val_strip (py_or (dict_get arguments (u "symbol")) (VStr [])));
    let symbol := py_upper U s in
    if is_empty symbol then
      Return (u "Error: 'symbol' parameter is required.")
    else
      result ← scrape_one symbol true true;
      if negb (scraped_ok result) then
        Return (u "Could not fetch analysis for " ++ symbol ++ u ": "
                ++ fmt_str (error result))
      else lift (_fmt_analysis U result)
  else if decide (name = u "scrape_url") then
    url ← lift (val_strip (py_or (dict_get arguments (u "url")) (VStr [])));
    if is_empty url then
      Return (u "Error: 'url' parameter is required.")
    else _scrape_url url
  else Throw (unknown_tool name).

End Dispatcher.

(** ** Running a coroutine against collaborators *)

Inductive call :=
| CallScrapeOne (symbol : pystr) (include_news include_fundamentals : bool)
| CallScrapeUrl (url : pystr).

(** What the collaborators answer; either may raise. *)
Record Collaborators := {
  market_scrape_one : pystr -> bool -> bool -> result ScrapeResponse;
  web_scrape_url : pystr -> result pystr
}.

(** The calls made, in order, and the outcome. *)
Fixpoint run {A} (c : Collaborators) (p : tool_io A) : list call * result A :=
  match p with
  | Return a => ([], Ok a)
  | Throw e => ([], Raise e)
  | AwaitScrapeOne s n fu k =>
      match market_scrape_one c s n fu with
      | Ok r => let '(calls, out) := run c (k r) in (CallScrapeOne s n fu :: calls, out)
      | Raise e => ([CallScrapeOne s n fu], Raise e)
      end
  | AwaitScrapeUrl url k =>
      match web_scrape_url c url with
      | Ok t => let '(calls, out) := run c (k t) in (CallScrapeUrl url :: calls, out)
      | Raise e => ([CallScrapeUrl url], Raise e)
      end
  end.

(** ** Notions used in the statements *)

(** The argument [key] is absent, or a text that is empty or only
    whitespace. *)
Definition arg_blank (arguments : gmap pystr pyval) (key : pystr) : Prop :=
  arguments !! key = None
  \/ exists s, arguments !! key = Some (VStr s) /\ forallb py_isspace s = true.

(** The required argument of each tool, read off the registry. *)
Definition required_arguments : list (pystr * pystr) :=
  flat_map (fun t => map (pair (name t)) (required (inputSchema t))) TOOLS.

(** The text returned when the required argument [key] is missing. *)
Definition required_error (key : pystr) : pystr :=
  u "Error: '" ++ key ++ u "' parameter is required.".

(** The volume can be printed: it is absent, or has at most 4300 digits. *)
Definition volume_printable (r : ScrapeResponse) : bool :=
  match volume r with
  | Some z => int_printable z
  | None => true
  end.

(** The analyst count can be printed where it is shown (with a
    recommendation): it is absent, or has at most 4300 digits. *)
Definition count_printable (r : ScrapeResponse) : bool :=
  if truthy_str (recommendation r) then
    match analyst_count r with
    | Some z => int_printable z
    | None => true
    end
  else true.

(** The price-target line can be formatted: when the mean target is
    tested true, the high and the low target are there. *)
Definition targets_formattable (r : ScrapeResponse) : bool :=
  if truthy_float (target_mean_price r)
  then is_not_none (target_high_price r) && is_not_none (target_low_price r)
  else true.

(** The exception that [_fmt_analysis] raises on [r], if any, in the order
    of the source: the volume in the PRICE block (line 115), the analyst
    count (line 179), the price-target line (lines 183-185). *)
Definition analysis_failure (r : ScrapeResponse) : option exn :=
  if negb (volume_printable r) then Some int_str_error
  else if negb (count_printable r) then Some int_str_error
  else if negb (targets_formattable r) then Some none_format_error
  else None.

(** The date shown for a news item: the first 10 characters of its
    timestamp, or the text N/A when there is none (no timestamp, or an empty
    one, which the source tests alike). *)
Definition published_date (item : NewsItem) : pystr :=
  match published_at item with
  | Some (c :: s) => slice_to 10 (c :: s)
  | _ => u "N/A"
  end.

(** The two lines of the news item numbered [i]. *)
Definition news_item_lines (entry : Z * NewsItem) : list pystr :=
  [str_of_int (fst entry) ++ u ". " ++ title (snd entry);
   u "   " ++ publisher (snd entry) ++ u "  |  " ++ published_date (snd entry)
   ++ u "  |  " ++ link (snd entry)].

(** The news items shown: the first five, numbered from 1. *)
Definition shown_news (r : ScrapeResponse) : list (Z * NewsItem) :=
  enumerate 1 (firstn 5 (news r)).

(** The RECENT NEWS section: its heading and the lines of the items shown;
    nothing for an empty news list. *)
Definition news_section (r : ScrapeResponse) : list pystr :=
  match news r with
  | [] => []
  | _ :: _ => (nl ++ u "── RECENT NEWS ──") :: flat_map news_item_lines (shown_news r)
  end.

(** The optional numeric fields that the formatters test by truth value. *)
Inductive numeric_field :=
| F_volume | F_ma_50 | F_ma_200 | F_prev_close
| F_market_cap | F_pe_ratio | F_forward_pe | F_eps | F_book_value
| F_price_to_book | F_dividend_yield | F_beta | F_roe | F_profit_margin
| F_debt_to_equity | F_current_ratio.

#[global] Instance numeric_field_eq_dec : EqDecision numeric_field.
Proof. solve_decision. Defined.




(** [r] with the field [f] absent, every other field as it is. *)
Definition clear_field (f : numeric_field) (r : ScrapeResponse) : ScrapeResponse :=
  let keep {A} (g : numeric_field) (v : option A) : option A :=
    if decide (f = g) then None else v in
  {| symbol := symbol r;
     company_name := company_name r;
     sector := sector r;
     industry := industry r;
     description := description r;
     price := price r;
     change := change r;
     change_pct := change_pct r;
     day_low := day_low r;
     day_high := day_high r;
     prev_close := keep F_prev_close (prev_close r);
     week_52_low := week_52_low r;
     week_52_high := week_52_high r;
     volume := keep F_volume (volume r);
     ma_50 := keep F_ma_50 (ma_50 r);
     ma_200 := keep F_ma_200 (ma_200 r);
     market_cap := keep F_market_cap (market_cap r);
     pe_ratio := keep F_pe_ratio (pe_ratio r);
     forward_pe := keep F_forward_pe (forward_pe r);
     eps := keep F_eps (eps r);
     book_value := keep F_book_value (book_value r);
     price_to_book := keep F_price_to_book (price_to_book r);
     dividend_yield := keep F_dividend_yield (dividend_yield r);
     beta := keep F_beta (beta r);
     roe := keep F_roe (roe r);
     profit_margin := keep F_profit_margin (profit_margin r);
     debt_to_equity := keep F_debt_to_equity (debt_to_equity r);
     current_ratio := keep F_current_ratio (current_ratio r);
     recommendation := recommendation r;
     analyst_count := analyst_count r;
     target_mean_price := target_mean_price r;
     target_high_price := target_high_price r;
     target_low_price := target_low_price r;
     news := news r;
     scraped_ok := scraped_ok r;
     error := error r;
     timestamp := timestamp r |}.







(** [r] with the three analyst targets given, every other field as it is. *)
Definition with_targets (mean high low : option pyfloat) (r : ScrapeResponse)
  : ScrapeResponse :=
  {| symbol := symbol r;
     company_name := company_name r;
     sector := sector r;
     industry := industry r;
     description := description r;
     price := price r;
     change := change r;
     change_pct := change_pct r;
     day_low := day_low r;
     day_high := day_high r;
     prev_close := prev_close r;
     week_52_low := week_52_low r;
     week_52_high := week_52_high r;
     volume := volume r;
     ma_50 := ma_50 r;
     ma_200 := ma_200 r;
     market_cap := market_cap r;
     pe_ratio := pe_ratio r;
     forward_pe := forward_pe r;
     eps := eps r;
     book_value := book_value r;
     price_to_book := price_to_book r;
     dividend_yield := dividend_yield r;
     beta := beta r;
     roe := roe r;
     profit_margin := profit_margin r;
     debt_to_equity := debt_to_equity r;
     current_ratio := current_ratio r;
     recommendation := recommendation r;
     analyst_count := analyst_count r;
     target_mean_price := mean;
     target_high_price := high;
     target_low_price := low;
     news := news r;
     scraped_ok := scraped_ok r;
     error := error r;
     timestamp := timestamp r |}.

(** A sample record: TCS with a price, a change, one news item and
    nothing else. *)
Definition sample_news : NewsItem :=
  {| title := u "Results beat estimates";
     publisher := u "Mint";
     published_at := Some (u "2024-05-01T10:00:00Z");
     link := u "https://example.com/tcs" |}.

Definition sample : ScrapeResponse :=
  {| symbol := u "TCS";
     company_name := Some (u "Tata Consultancy Services");
     sector := None; industry := None; description := None;
     price := Some (float_lit 350000 2);
     change := Some (float_lit 125 1);
     change_pct := Some (float_lit 36 2);
     day_low := None; day_high := None; prev_close := None;
     week_52_low := None; week_52_high := None;
     volume := Some 0; ma_50 := None; ma_200 := None;
     market_cap := None; pe_ratio := None; forward_pe := None; eps := None;
     book_value := None; price_to_book := None; dividend_yield := None;
     beta := None; roe := None; profit_margin := None;
     debt_to_equity := None; current_ratio := None;
     recommendation := None; analyst_count := None;
     target_mean_price := None; target_high_price := None;
     target_low_price := None;
     news := [sample_news];
     scraped_ok := true; error := None;
     timestamp := u "2024-05-01T10:00:00.123456+05:30" |}.

(** The sample with a mean target of 3900 and no high target. *)
Definition sample_without_high_target : ScrapeResponse :=
  {| symbol := symbol sample;
     company_name := company_name sample;
     sector := None; industry := None; description := None;
     price := price sample;
     change := change sample;
     change_pct := change_pct sample;
     day_low := None; day_high := None; prev_close := None;
     week_52_low := None; week_52_high := None;
     volume := None; ma_50 := None; ma_200 := None;
     market_cap := None; pe_ratio := None; forward_pe := None; eps := None;
     book_value := None; price_to_book := None; dividend_yield := None;
     beta := None; roe := None; profit_margin := None;
     debt_to_equity := None; current_ratio := None;
     recommendation := None; analyst_count := None;
     target_mean_price := Some (float_of_Z 3900);
     target_high_price := None;
     target_low_price := Some (float_of_Z 3100);
     news := news sample;
     scraped_ok := true; error := None;
     timestamp := timestamp sample |}.

(** The sample (one news item) with a mean target of 3900, a high target
    of 4500 and no low target. *)
Definition sample_without_low_target : ScrapeResponse :=
  with_targets (Some (float_of_Z 3900)) (Some (float_of_Z 4500)) None sample.

(** The sample as a failed fetch. *)
Definition sample_failed : ScrapeResponse :=
  {| symbol := u "TCS";
     company_name := None;
     sector := None; industry := None; description := None;
     price := None; change := None; change_pct := None;
     day_low := None; day_high := None; prev_close := None;
     week_52_low := None; week_52_high := None;
     volume := None; ma_50 := None; ma_200 := None;
     market_cap := None; pe_ratio := None; forward_pe := None; eps := None;
     book_value := None; price_to_book := None; dividend_yield := None;
     beta := None; roe := None; profit_margin := None;
     debt_to_equity := None; current_ratio := None;
     recommendation := None; analyst_count := None;
     target_mean_price := None; target_high_price := None;
     target_low_price := None;
     news := [];
     scraped_ok := false; error := Some (u "rate limited");
     timestamp := u "2024-05-01T10:00:00" |}.

(** Collaborators that answer every market call with [r] and every scrape
    with the empty text. *)
Definition answering (r : ScrapeResponse) : Collaborators :=
  {| market_scrape_one := fun _ _ _ => Ok r;
     web_scrape_url := fun _ => Ok [] |}.

(** ** The server *)

(** [mcp.types.TextContent], as [backend/mcp_server/server.py] builds it. *)
Record TextContent := {
  content_type : pystr;
  text : pystr
}.

(** [list_tools()] of [server.py]. *)
Definition list_tools : list Tool := TOOLS.

(** [_call_tool(name, arguments)] of [server.py]: the text of [call_tool]
    in one [TextContent]. *)
Definition _call_tool (U : UnicodeData) (name : pystr)
    (arguments : gmap pystr pyval) : tool_io (list TextContent) :=
  result ← call_tool U name arguments;
  Return [ {| content_type := u "text"; text := result |} ].

(** ** More notions used in the statements *)

(** The outcome [x] with [f] applied to its value. *)
Definition result_map {A B} (f : A -> B) (x : result A) : result B :=
  match x with
  | Ok a => Ok (f a)
  | Raise e => Raise e
  end.

(** A text that is only whitespace (or empty). *)
Definition blank (s : pystr) : Prop := forallb py_isspace s = true.

(** A text that neither begins nor ends with whitespace. *)
Definition trimmed (s : pystr) : Prop :=
  (forall c, head s = Some c -> py_isspace c = false)
  /\ (forall c, last s = Some c -> py_isspace c = false).

(** A text without its thousands separators. *)
Definition without_commas (s : pystr) : pystr :=
  filter (fun c => c <> 44%N) s.

(** A text of ASCII characters only. *)
Definition ascii_text (s : pystr) : Prop := Forall (fun c => (c < 128)%N) s.

(** The upper-case form of an ASCII character. *)
Definition ascii_upper (c : N) : N :=
  if ((97 <=? c) && (c <=? 122))%N then (c - 32)%N else c.

(** How many of the tests are true. *)
Fixpoint count_true (tests : list bool) : nat :=
  match tests with
  | [] => O
  | true :: tests' => S (count_true tests')
  | false :: tests' => count_true tests'
  end.

(** The tests of the twelve fundamentals lines, in the order of the source. *)
Definition fundamentals_tests (r : ScrapeResponse) : list bool :=
  [truthy_float (market_cap r); truthy_float (pe_ratio r);
   truthy_float (forward_pe r); truthy_float (eps r);
   truthy_float (book_value r); truthy_float (price_to_book r);
   truthy_float (dividend_yield r); truthy_float (beta r);
   truthy_float (roe r); truthy_float (profit_margin r);
   truthy_float (debt_to_equity r); truthy_float (current_ratio r)].

(** The tests of the four optional lines of the concise layout: the price
    line, the day range, the 52-week range, and the line of the volume and
    the moving averages. *)
Definition concise_tests (r : ScrapeResponse) : list bool :=
  [is_not_none (price r);
   is_not_none (day_low r) && is_not_none (day_high r);
   is_not_none (week_52_low r) && is_not_none (week_52_high r);
   truthy_int (volume r) || truthy_float (ma_50 r) || truthy_float (ma_200 r)].

(** [r] with the news list [items], every other field as it is. *)
Definition with_news (items : list NewsItem) (r : ScrapeResponse) : ScrapeResponse :=
  {| symbol := symbol r;
     company_name := company_name r;
     sector := sector r;
     industry := industry r;
     description := description r;
     price := price r;
     change := change r;
     change_pct := change_pct r;
     day_low := day_low r;
     day_high := day_high r;
     prev_close := prev_close r;
     week_52_low := week_52_low r;
     week_52_high := week_52_high r;
     volume := volume r;
     ma_50 := ma_50 r;
     ma_200 := ma_200 r;
     market_cap := market_cap r;
     pe_ratio := pe_ratio r;
     forward_pe := forward_pe r;
     eps := eps r;
     book_value := book_value r;
     price_to_book := price_to_book r;
     dividend_yield := dividend_yield r;
     beta := beta r;
     roe := roe r;
     profit_margin := profit_margin r;
     debt_to_equity := debt_to_equity r;
     current_ratio := current_ratio r;
     recommendation := recommendation r;
     analyst_count := analyst_count r;
     target_mean_price := target_mean_price r;
     target_high_price := target_high_price r;
     target_low_price := target_low_price r;
     news := items;
     scraped_ok := scraped_ok r;
     error := error r;
     timestamp := timestamp r |}.

(** The part of [r] that the concise layout reads: the identity, the price
    fields and the timestamp; everything else absent. *)
Definition price_only (r : ScrapeResponse) : ScrapeResponse :=
  {| symbol := symbol r;
     company_name := company_name r;
     sector := None;
     industry := None;
     description := None;
     price := price r;
     change := change r;
     change_pct := change_pct r;
     day_low := day_low r;
     day_high := day_high r;
     prev_close := prev_close r;
     week_52_low := week_52_low r;
     week_52_high := week_52_high r;
     volume := volume r;
     ma_50 := ma_50 r;
     ma_200 := ma_200 r;
     market_cap := None;
     pe_ratio := None;
     forward_pe := None;
     eps := None;
     book_value := None;
     price_to_book := None;
     dividend_yield := None;
     beta := None;
     roe := None;
     profit_margin := None;
     debt_to_equity := None;
     current_ratio := None;
     recommendation := None;
     analyst_count := None;
     target_mean_price := None;
     target_high_price := None;
     target_low_price := None;
     news := [];
     scraped_ok := true;
     error := None;
     timestamp := timestamp r |}.

(** Collaborators whose market call raises [e]. *)
Definition failing (e : exn) : Collaborators :=
  {| market_scrape_one := fun _ _ _ => Raise e;
     web_scrape_url := fun _ => Raise e |}.

(** Collaborators whose scraper answers every URL with [page]. *)
Definition serving (page : pystr) : Collaborators :=
  {| market_scrape_one := fun _ _ _ => Raise (ValueError []);
     web_scrape_url := fun _ => Ok page |}.

(** * Properties *)

(** ** Strings *)

Lemma lstrip_blank (s : pystr) :
  forallb py_isspace s = true -> lstrip s = [].
Proof.
  induction s as [|c s IH]; cbn [forallb lstrip]; [reflexivity|].
  intros H. apply andb_prop in H as [Hc Hs]. rewrite Hc. exact (IH Hs).
Qed.

Lemma py_strip_blank (s : pystr) :
  forallb py_isspace s = true -> py_strip s = [].
Proof.
  intros H. unfold py_strip. rewrite (lstrip_blank s H). reflexivity.
Qed.

Lemma upper_char_cons (U : UnicodeData) (c : N) :
  exists c1 cs, upper_char U c = c1 :: cs.
Proof.
  unfold upper_char. destruct (c <? 128)%N.
  - destruct ((97 <=? c) && (c <=? 122))%N; eauto.
  - destruct (uni_upper U c) as [c1 cs]. eauto.
Qed.

Lemma py_upper_nonempty (U : UnicodeData) (s : pystr) :
  s <> [] -> is_empty (py_upper U s) = false.
Proof.
  destruct s as [|c s]; [congruence|]. intros _.
  unfold py_upper. cbn [flat_map].
  destruct (upper_char_cons U c) as (c1 & cs & ->). reflexivity.
Qed.

(** ** Argument lookup *)

Lemma val_strip_or_falsy (arguments : gmap pystr pyval) (key : pystr) (v : pyval) :
  arguments !! key = Some v -> truthy v = false ->
  val_strip (py_or (dict_get arguments key) (VStr [])) = Ok [].
Proof.
  intros Hk Hv. unfold dict_get. rewrite Hk. cbn [default from_option id].
  unfold py_or. rewrite Hv. reflexivity.
Qed.

Lemma val_strip_or_blank (arguments : gmap pystr pyval) (key : pystr) :
  arg_blank arguments key ->
  val_strip (py_or (dict_get arguments key) (VStr [])) = Ok [].
Proof.
  intros [Hk | (s & Hk & Hs)]; unfold dict_get; rewrite Hk; cbn [default from_option id].
  - reflexivity.
  - unfold py_or. destruct (truthy (VStr s)); cbn [val_strip].
    + f_equal. exact (py_strip_blank s Hs).
    + reflexivity.
Qed.

Lemma val_strip_or_text (arguments : gmap pystr pyval) (key : pystr) (s : pystr) :
  arguments !! key = Some (VStr s) ->
  val_strip (py_or (dict_get arguments key) (VStr [])) = Ok (py_strip s).
Proof.
  intros Hk. unfold dict_get. rewrite Hk. cbn [default from_option id].
  unfold py_or. destruct s; reflexivity.
Qed.

(** ** The three branches of the dispatcher *)

Lemma analysis_is_not_price : u "get_stock_analysis" <> u "get_stock_price".
Proof. intros H. vm_compute in H. discriminate H. Qed.

Lemma scrape_is_not_price : u "scrape_url" <> u "get_stock_price".
Proof. intros H. vm_compute in H. discriminate H. Qed.

Lemma scrape_is_not_analysis : u "scrape_url" <> u "get_stock_analysis".
Proof. intros H. vm_compute in H. discriminate H. Qed.

Section Branches.
Context (U : UnicodeData) (arguments : gmap pystr pyval).

Lemma call_tool_price_empty :
  val_strip (py_or (dict_get arguments (u "symbol")) (VStr [])) = Ok [] ->
  call_tool U (u "get_stock_price") arguments
  = Return (u "Error: 'symbol' parameter is required.").
Proof.
  intros H. unfold call_tool. rewrite decide_True by reflexivity.
  rewrite H. reflexivity.
Qed.

Lemma call_tool_analysis_empty :
  val_strip (py_or (dict_get arguments (u "symbol")) (VStr [])) = Ok [] ->
  call_tool U (u "get_stock_analysis") arguments
  = Return (u "Error: 'symbol' parameter is required.").
Proof.
  intros H. unfold call_tool.
  rewrite (decide_False _ _ analysis_is_not_price).
  rewrite decide_True by reflexivity.
  rewrite H. reflexivity.
Qed.

Lemma call_tool_scrape_empty :
  val_strip (py_or (dict_get arguments (u "url")) (VStr [])) = Ok [] ->
  call_tool U (u "scrape_url") arguments
  = Return (u "Error: 'url' parameter is required.").
Proof.
  intros H. unfold call_tool.
  rewrite (decide_False _ _ scrape_is_not_price).
  rewrite (decide_False _ _ scrape_is_not_analysis).
  rewrite decide_True by reflexivity.
  rewrite H. reflexivity.
Qed.

Lemma call_tool_price_symbol (s : pystr) :
  arguments !! u "symbol" = Some (VStr s) -> py_strip s <> [] ->
  call_tool U (u "get_stock_price") arguments
  = AwaitScrapeOne (py_upper U (py_strip s)) false false
      (fun result =>
         if negb (scraped_ok result) then
           Return (u "Could not fetch price for " ++ py_upper U (py_strip s)
                   ++ u ": " ++ fmt_str (error result))
         else lift (_fmt_price result)).
Proof.
  intros Hk Hs. unfold call_tool. rewrite decide_True by reflexivity.
  rewrite (val_strip_or_text _ _ _ Hk). cbn [lift mbind tool_io_mbind tool_io_bind].
  rewrite (py_upper_nonempty U _ Hs).
  unfold scrape_one. cbn [tool_io_bind]. reflexivity.
Qed.

Lemma call_tool_analysis_symbol (s : pystr) :
  arguments !! u "symbol" = Some (VStr s) -> py_strip s <> [] ->
  call_tool U (u "get_stock_analysis") arguments
  = AwaitScrapeOne (py_upper U (py_strip s)) true true
      (fun result =>
         if negb (scraped_ok result) then
           Return (u "Could not fetch analysis for " ++ py_upper U (py_strip s)
                   ++ u ": " ++ fmt_str (error result))
         else lift (_fmt_analysis U result)).
Proof.
  intros Hk Hs. unfold call_tool.
  rewrite (decide_False _ _ analysis_is_not_price).
  rewrite decide_True by reflexivity.
  rewrite (val_strip_or_text _ _ _ Hk). cbn [lift mbind tool_io_mbind tool_io_bind].
  rewrite (py_upper_nonempty U _ Hs).
  unfold scrape_one. cbn [tool_io_bind]. reflexivity.
Qed.
End Branches.

Lemma run_lift {A} (c : Collaborators) (x : result A) : run c (lift x) = ([], x).
Proof. destruct x; reflexivity. Qed.

Lemma run_after_scrape_one {A} (c : Collaborators) (sym : pystr) (n f : bool)
    (k : ScrapeResponse -> tool_io A) :
  (forall r, fst (run c (k r)) = []) ->
  fst (run c (AwaitScrapeOne sym n f k)) = [CallScrapeOne sym n f].
Proof.
  intros Hk. cbn [run]. destruct (market_scrape_one c sym n f) as [r|e]; [|reflexivity].
  specialize (Hk r). destruct (run c (k r)) as [calls out].
  cbn [fst] in *. rewrite Hk. reflexivity.
Qed.

Lemma required_arguments_cases (tool key : pystr) :
  (tool, key) ∈ required_arguments ->
  (tool = u "get_stock_price" /\ key = u "symbol")
  \/ (tool = u "get_stock_analysis" /\ key = u "symbol")
  \/ (tool = u "scrape_url" /\ key = u "url").
Proof.
  intros H. apply list_elem_of_In in H. vm_compute in H.
  destruct H as [H | [H | [H | []]]]; inversion H; subst; vm_compute; tauto.
Qed.

Lemma required_error_symbol :
  required_error (u "symbol") = u "Error: 'symbol' parameter is required.".
Proof. vm_compute. reflexivity. Qed.

Lemma required_error_url :
  required_error (u "url") = u "Error: 'url' parameter is required.".
Proof. vm_compute. reflexivity. Qed.

Lemma missing_argument_returns (U : UnicodeData) (tool key : pystr)
    (arguments : gmap pystr pyval) :
  (tool, key) ∈ required_arguments ->
  val_strip (py_or (dict_get arguments key) (VStr [])) = Ok [] ->
  call_tool U tool arguments = Return (required_error key).
Proof.
  intros Hreq Hv.
  destruct (required_arguments_cases _ _ Hreq) as [[-> ->] | [[-> ->] | [-> ->]]].
  - rewrite required_error_symbol. apply call_tool_price_empty, Hv.
  - rewrite required_error_symbol. apply call_tool_analysis_empty, Hv.
  - rewrite required_error_url. apply call_tool_scrape_empty, Hv.
Qed.

(** ** The formatters never fail on a guarded field *)

Lemma truthy_float_some (o : option pyfloat) :
  truthy_float o = true -> exists x, o = Some x.
Proof. destruct o; [eauto | discriminate]. Qed.

Lemma truthy_int_some (o : option Z) :
  truthy_int o = true -> exists z, o = Some z.
Proof. destruct o; [eauto | discriminate]. Qed.

Lemma price_line_appends (r : ScrapeResponse) (lines : list pystr) :
  exists ext, price_line r lines = Ok (lines ++ ext).
Proof.
  unfold price_line.
  destruct (price r) as [p|]; cbn [is_not_none].
  - destruct (change r) as [c|], (change_pct r) as [q|];
      cbn [is_not_none andb ge0 fmt_f mbind result_bind]; eauto.
  - exists []. rewrite app_nil_r. reflexivity.
Qed.

Lemma day_range_line_appends (r : ScrapeResponse) (lines : list pystr) :
  exists ext, day_range_line r lines = Ok (lines ++ ext).
Proof.
  unfold day_range_line.
  destruct (day_low r) as [lo|], (day_high r) as [hi|]; cbn [is_not_none andb];
    try (exists []; rewrite app_nil_r; reflexivity).
  destruct (prev_close r) as [[]|];
    cbn [truthy_float float_truthy fmt_f mbind result_bind]; eauto.
Qed.

Lemma week_52_line_appends (r : ScrapeResponse) (lines : list pystr) :
  exists ext, week_52_line r lines = Ok (lines ++ ext).
Proof.
  unfold week_52_line.
  destruct (week_52_low r) as [lo|], (week_52_high r) as [hi|];
    cbn [is_not_none andb fmt_f mbind result_bind]; eauto;
    exists []; rewrite app_nil_r; reflexivity.
Qed.

Lemma fmt_f_truthy (grouped : bool) (d : nat) (o : option pyfloat) :
  truthy_float o = true -> exists v, fmt_f grouped d o = Ok v.
Proof. intros [x ->]%truthy_float_some. cbn [fmt_f]. eauto. Qed.

Lemma zero_is_printable : int_printable 0 = true.
Proof. vm_compute. reflexivity. Qed.

(** The limit is at 4300 digits: the largest integer with 4300 digits is
    printed, the smallest with 4301 is refused. *)
Lemma digit_limit_boundary :
  int_printable (10 ^ 4300 - 1) = true /\ int_printable (10 ^ 4300) = false
  /\ int_printable (- (10 ^ 4300 - 1)) = true.
Proof. vm_compute. repeat split. Qed.

Lemma volume_part_outcome (r : ScrapeResponse) (parts : list pystr) :
  exists ext,
    part (truthy_int (volume r)) "Volume: " (fmt_int_grouped (volume r)) parts
    = (if volume_printable r then Ok (parts ++ ext) else Raise int_str_error)
    /\ length ext = count_true [truthy_int (volume r)].
Proof.
  unfold volume_printable, part. destruct (volume r) as [z|]; cbn [truthy_int].
  - destruct (Z.eqb_spec z 0) as [-> | Hz]; cbn [negb count_true].
    + rewrite zero_is_printable. exists []. rewrite app_nil_r. split; reflexivity.
    + cbn [fmt_int_grouped]. unfold int_to_str_grouped.
      destruct (int_printable z); cbn [mbind result_bind]; eauto.
      exists [[]]. split; reflexivity.
  - exists []. rewrite app_nil_r. split; reflexivity.
Qed.

Lemma scaled_fmt_truthy (grouped : bool) (d : nat) (o : option pyfloat)
    (scale : option pyfloat -> result (option pyfloat)) :
  scale = times_100 \/ scale = over_1e7 ->
  truthy_float o = true ->
  exists v, (y ← scale o; fmt_f grouped d y) = Ok v.
Proof.
  intros Hs [x ->]%truthy_float_some.
  destruct Hs as [-> | ->]; cbn [times_100 over_1e7 mbind result_bind fmt_f]; eauto.
Qed.

Lemma part_counted (guard : bool) (label : string) (value : result pystr)
    (parts : list pystr) :
  (guard = true -> exists v, value = Ok v) ->
  exists ext, part guard label value parts = Ok (parts ++ ext)
              /\ length ext = count_true [guard].
Proof.
  intros Hv. unfold part. destruct guard.
  - destruct (Hv eq_refl) as [v ->]. cbn [mbind result_bind]. eauto.
  - exists []. rewrite app_nil_r. split; reflexivity.
Qed.

(** The list [parts]: refused only for a volume that cannot be printed;
    otherwise one entry per test that holds. *)
Lemma volume_ma_parts_outcome (r : ScrapeResponse) :
  exists parts,
    volume_ma_parts r
    = (if volume_printable r then Ok parts else Raise int_str_error)
    /\ (volume_printable r = true ->
        length parts
        = count_true [truthy_int (volume r); truthy_float (ma_50 r);
                      truthy_float (ma_200 r)]).
Proof.
  unfold volume_ma_parts.
  destruct (volume_part_outcome r []) as (e1 & -> & H1).
  destruct (volume_printable r); cbn [mbind result_bind].
  - destruct (part_counted (truthy_float (ma_50 r)) "MA50: ₹"
                (fmt_f true 2 (ma_50 r)) ([] ++ e1) (fmt_f_truthy _ _ _))
      as (e2 & -> & H2).
    cbn [mbind result_bind].
    destruct (part_counted (truthy_float (ma_200 r)) "MA200: ₹"
                (fmt_f true 2 (ma_200 r)) (([] ++ e1) ++ e2) (fmt_f_truthy _ _ _))
      as (e3 & -> & H3).
    eexists. split; [reflexivity|]. intros _.
    rewrite !length_app, H1, H2, H3. cbn [length].
    destruct (truthy_int (volume r)), (truthy_float (ma_50 r)),
      (truthy_float (ma_200 r)); reflexivity.
  - exists []. split; [reflexivity | discriminate].
Qed.

Lemma _fmt_price_lines_outcome (r : ScrapeResponse) :
  exists rest,
    _fmt_price_lines r
    = if volume_printable r then Ok (price_header r :: rest)
      else Raise int_str_error.
Proof.
  unfold _fmt_price_lines. cbn [app].
  destruct (price_line_appends r [price_header r]) as [e1 ->].
  cbn [mbind result_bind].
  destruct (day_range_line_appends r ([price_header r] ++ e1)) as [e2 ->].
  cbn [mbind result_bind].
  destruct (week_52_line_appends r (([price_header r] ++ e1) ++ e2)) as [e3 ->].
  cbn [mbind result_bind].
  destruct (volume_ma_parts_outcome r) as (parts & -> & _).
  destruct (volume_printable r); cbn [mbind result_bind]; [|exists []; reflexivity].
  destruct parts; rewrite <- !app_assoc; cbn [app]; eauto.
Qed.

(** A volume of 4301 digits makes the concise layout raise. *)
Lemma huge_volume_raises (r : ScrapeResponse) :
  volume r = Some (10 ^ 4300) -> _fmt_price_lines r = Raise int_str_error.
Proof.
  intros Hv. destruct (_fmt_price_lines_outcome r) as [rest ->].
  unfold volume_printable. rewrite Hv.
  rewrite (proj1 (proj2 digit_limit_boundary)). reflexivity.
Qed.

Lemma _fmt_price_outcome (r : ScrapeResponse) :
  exists text,
    _fmt_price r = if volume_printable r then Ok text else Raise int_str_error.
Proof.
  unfold _fmt_price. destruct (_fmt_price_lines_outcome r) as [rest ->].
  destruct (volume_printable r); cbn [mbind result_bind]; eauto.
  exists []. reflexivity.
Qed.

Lemma fund_line_total (guard : bool) (label : string) (value : result pystr)
    (unit : string) (fund : list pystr) :
  (guard = true -> exists v, value = Ok v) ->
  exists fund', fund_line guard label value unit fund = Ok fund'.
Proof.
  intros Hv. unfold fund_line. destruct guard; [|eauto].
  destruct (Hv eq_refl) as [v ->]. cbn [mbind result_bind]. eauto.
Qed.

Lemma fund_lines_total (r : ScrapeResponse) :
  exists fund, fund_lines r = Ok fund.
Proof.
  unfold fund_lines.
  repeat
    match goal with
    | |- exists _, mbind _ (fund_line ?g ?l ?v ?un ?f) = _ =>
        let H := fresh in
        assert (H : exists f', fund_line g l v un f = Ok f')
          by (apply fund_line_total;
              first [ apply fmt_f_truthy
                    | apply scaled_fmt_truthy; tauto ]);
        destruct H as [? ->]; cbn [mbind result_bind]
    end.
  apply fund_line_total, fmt_f_truthy.
Qed.

(** ** The analyst block and the news loop *)

(** The consensus line: refused only for an analyst count that cannot be
    printed. *)
Lemma consensus_outcome (U : UnicodeData) (r : ScrapeResponse) :
  exists a,
    (if truthy_str (recommendation r) then
       count ←
         (if truthy_int (analyst_count r) then
            c ← fmt_int (analyst_count r);
            Ok (u " (" ++ c ++ u " analysts)")
          else Ok []);
       rec ← upper_opt U (recommendation r);
       Ok ([] ++ [u "Consensus: " ++ rec ++ count])
     else Ok [])
    = if count_printable r then Ok a else Raise int_str_error.
Proof.
  unfold count_printable.
  destruct (recommendation r) as [[|c s]|]; cbn [truthy_str]; eauto.
  destruct (analyst_count r) as [z|]; cbn [truthy_int fmt_int].
  - destruct (Z.eqb_spec z 0) as [-> | Hz]; cbn [negb].
    + rewrite zero_is_printable. cbn [upper_opt mbind result_bind]. eauto.
    + unfold int_to_str. destruct (int_printable z);
        cbn [upper_opt mbind result_bind]; eauto.
      exists []. reflexivity.
  - cbn [upper_opt mbind result_bind]. eauto.
Qed.

Lemma analyst_lines_outcome (U : UnicodeData) (r : ScrapeResponse) :
  exists analyst,
    analyst_lines U r
    = if count_printable r
      then if targets_formattable r then Ok analyst else Raise none_format_error
      else Raise int_str_error.
Proof.
  unfold analyst_lines, targets_formattable.
  destruct (consensus_outcome U r) as [a ->].
  destruct (count_printable r); cbn [mbind result_bind]; [|exists []; reflexivity].
  destruct (target_mean_price r) as [mean|]; cbn [truthy_float]; [|eauto].
  destruct (float_truthy mean); [|eauto].
  cbn [fmt_f mbind result_bind].
  destruct (target_high_price r) as [high|]; cbn [is_not_none andb fmt_f mbind result_bind].
  - destruct (target_low_price r) as [low|]; cbn [is_not_none fmt_f mbind result_bind];
      [eauto | exists []; reflexivity].
  - exists []. reflexivity.
Qed.

Lemma news_entry_lines (sections : list pystr) (entry : Z * NewsItem) :
  news_entry sections entry = Ok (sections ++ news_item_lines entry).
Proof.
  destruct entry as [i item]. unfold news_entry, news_item_lines, published_date.
  cbn [fst snd].
  destruct (published_at item) as [[|c s]|];
    cbn [truthy_str slice_opt mbind result_bind];
    rewrite <- app_assoc; reflexivity.
Qed.

Lemma news_loop_lines (entries : list (Z * NewsItem)) (sections : list pystr) :
  for_each entries news_entry sections
  = Ok (sections ++ flat_map news_item_lines entries).
Proof.
  revert sections. induction entries as [|e entries IH]; intros sections;
    cbn [for_each flat_map].
  - rewrite app_nil_r. reflexivity.
  - rewrite news_entry_lines. cbn [mbind result_bind].
    rewrite IH, <- app_assoc. reflexivity.
Qed.

Lemma enumerate_length {A} (start : Z) (l : list A) :
  length (enumerate start l) = length l.
Proof.
  revert start. induction l as [|x l IH]; intros start; cbn [enumerate length];
    [reflexivity | rewrite IH; reflexivity].
Qed.

Lemma enumerate_lookup {A} (start : Z) (l : list A) (k : nat) :
  enumerate start l !! k = (fun x => (start + Z.of_nat k, x)) <$> l !! k.
Proof.
  revert start k. induction l as [|x l IH]; intros start [|k]; cbn; try reflexivity.
  - rewrite Z.add_0_r. reflexivity.
  - rewrite IH. destruct (l !! k); cbn; [|reflexivity].
    do 2 f_equal. lia.
Qed.

Lemma flat_map_news_length (entries : list (Z * NewsItem)) :
  length (flat_map news_item_lines entries) = (2 * length entries)%nat.
Proof.
  induction entries as [|e entries IH]; cbn [flat_map length app news_item_lines];
    [reflexivity | rewrite IH; lia].
Qed.

Lemma news_lines_section (r : ScrapeResponse) (sections : list pystr) :
  news_lines r sections = Ok (sections ++ news_section r).
Proof.
  unfold news_lines, news_section, shown_news.
  destruct (news r) as [|n ns].
  - rewrite app_nil_r. reflexivity.
  - cbv zeta. rewrite news_loop_lines, <- app_assoc. reflexivity.
Qed.

(** The sections of the detailed layout: everything before the news, the
    news section, the footer; or the exception raised on the way. *)
Lemma analysis_sections_shape (U : UnicodeData) (r : ScrapeResponse) :
  exists before,
    _fmt_analysis_sections U r
    = match analysis_failure r with
      | None => Ok (before ++ news_section r ++ [footer nl r])
      | Some e => Raise e
      end.
Proof.
  unfold _fmt_analysis_sections, analysis_failure.
  assert (exists d, forall (secs : list pystr),
    (if truthy_str (description r)
     then (d ← strip_opt (description r); Ok (secs ++ [nl ++ u "Business: " ++ d]))
     else Ok secs) = Ok (secs ++ d)) as [d Hd].
  { destruct (description r) as [[|c s]|];
      cbn [truthy_str strip_opt mbind result_bind]; eauto;
      exists []; intros; rewrite app_nil_r; reflexivity. }
  rewrite Hd. cbn [mbind result_bind].
  destruct (_fmt_price_outcome r) as [p ->].
  destruct (volume_printable r); cbn [negb mbind result_bind]; [|exists []; reflexivity].
  destruct (fund_lines_total r) as [fund ->]. cbn [mbind result_bind].
  destruct (analyst_lines_outcome U r) as [analyst ->].
  destruct (count_printable r); cbn [negb mbind result_bind]; [|exists []; reflexivity].
  destruct (targets_formattable r); cbn [negb mbind result_bind];
    [|exists []; reflexivity].
  rewrite news_lines_section. cbn [mbind result_bind].
  eexists. rewrite <- app_assoc. reflexivity.
Qed.

(** ** The registry *)

Lemma available_names :
  available = [u "get_stock_price"; u "get_stock_analysis"; u "scrape_url"].
Proof. vm_compute. reflexivity. Qed.

Lemma available_text (U : UnicodeData) :
  str_of_str_list U available
  = u "['get_stock_price', 'get_stock_analysis', 'scrape_url']".
Proof. vm_compute. reflexivity. Qed.

Lemma not_available (tool : pystr) :
  tool ∉ available ->
  tool <> u "get_stock_price" /\ tool <> u "get_stock_analysis"
  /\ tool <> u "scrape_url".
Proof.
  rewrite available_names. intros H.
  repeat split; intros ->; apply H; set_solver.
Qed.

(** * The claims *)

(** C2. For every tool name that is not one of the registered names,
    [call_tool] raises: it is a [ValueError], no collaborator is called, and
    the message quotes the name and lists the registered names
    [get_stock_price], [get_stock_analysis], [scrape_url], which is the list
    of the names of [TOOLS] in the order of the registry. *)
Theorem unknown_tool_raises (U : UnicodeData) (tool : pystr)
    (arguments : gmap pystr pyval) :
  tool ∉ map name TOOLS ->
  call_tool U tool arguments
  = Throw (ValueError
             (u "Unknown tool: '" ++ tool ++ u "'. Available tools: "
              ++ u "['get_stock_price', 'get_stock_analysis', 'scrape_url']"))
  /\ (forall c : Collaborators,
        run c (call_tool U tool arguments)
        = ([], Raise (ValueError
                        (u "Unknown tool: '" ++ tool ++ u "'. Available tools: "
                         ++ str_of_str_list U (map name TOOLS)))))
  /\ map name TOOLS
     = [u "get_stock_price"; u "get_stock_analysis"; u "scrape_url"].
Proof.
  intros Hn. destruct (not_available tool Hn) as (H1 & H2 & H3).
  assert (call_tool U tool arguments = Throw (unknown_tool U tool)) as Hcall.
  { unfold call_tool.
    rewrite (decide_False _ _ H1), (decide_False _ _ H2), (decide_False _ _ H3).
    reflexivity. }
  rewrite Hcall. unfold unknown_tool. fold available.
  rewrite available_text. split; [reflexivity|]. split; [reflexivity|].
  apply available_names.
Qed.

Lemma unknown_tool_raises_witness :
  (u "get_quote" ∉ map name TOOLS)
  /\ call_tool ascii_only (u "get_quote") ∅
     = Throw (ValueError
                (u "Unknown tool: '" ++ u "get_quote" ++ u "'. Available tools: "
                 ++ u "['get_stock_price', 'get_stock_analysis', 'scrape_url']")).
Proof.
  assert (u "get_quote" ∉ map name TOOLS) as H.
  { fold available. rewrite available_names.
    intros H. apply list_elem_of_In in H. vm_compute in H.
    intuition discriminate. }
  split; [exact H|]. exact (proj1 (unknown_tool_raises ascii_only _ ∅ H)).
Defined.

(** C3. When the required argument of a tool ([symbol] for get_stock_price
    and get_stock_analysis, [url] for scrape_url) is absent, empty or only
    whitespace, [call_tool] returns the text
    [Error: '<argument>' parameter is required.] at once: the coroutine is a
    plain return, and run against any collaborators it calls none. *)
Theorem missing_argument_is_reported (U : UnicodeData) (tool key : pystr)
    (arguments : gmap pystr pyval) :
  (tool, key) ∈ required_arguments ->
  arg_blank arguments key ->
  call_tool U tool arguments = Return (required_error key)
  /\ (forall c : Collaborators,
        run c (call_tool U tool arguments) = ([], Ok (required_error key)))
  /\ required_arguments
     = [(u "get_stock_price", u "symbol"); (u "get_stock_analysis", u "symbol");
        (u "scrape_url", u "url")]
  /\ required_error (u "symbol") = u "Error: 'symbol' parameter is required."
  /\ required_error (u "url") = u "Error: 'url' parameter is required.".
Proof.
  intros Hreq Hblank.
  pose proof (missing_argument_returns U tool key arguments Hreq
                (val_strip_or_blank arguments key Hblank)) as Hcall.
  split; [exact Hcall|]. split; [intros c; rewrite Hcall; reflexivity|].
  split; [vm_compute; reflexivity|].
  split; [apply required_error_symbol | apply required_error_url].
Qed.

Lemma missing_argument_is_reported_witness :
  call_tool ascii_only (u "scrape_url") {[ u "url" := VStr (u "   ") ]}
  = Return (u "Error: 'url' parameter is required.").
Proof.
  rewrite <- required_error_url.
  refine (proj1 (missing_argument_is_reported ascii_only (u "scrape_url") (u "url")
                   {[ u "url" := VStr (u "   ") ]} _ _)).
  - apply list_elem_of_In. vm_compute. tauto.
  - right. exists (u "   "). split; [apply lookup_singleton_eq | reflexivity].
Defined.

(** C10. When the required argument is present but bound to [None],
    [call_tool] does not fail: it returns the same required-parameter text
    as for an absent argument, without calling a collaborator. *)
Theorem null_argument_is_reported (U : UnicodeData) (tool key : pystr)
    (arguments : gmap pystr pyval) :
  (tool, key) ∈ required_arguments ->
  arguments !! key = Some VNone ->
  call_tool U tool arguments = Return (required_error key)
  /\ call_tool U tool arguments = call_tool U tool (delete key arguments)
  /\ (forall c : Collaborators,
        run c (call_tool U tool arguments) = ([], Ok (required_error key))).
Proof.
  intros Hreq Hnull.
  pose proof (missing_argument_returns U tool key arguments Hreq
                (val_strip_or_falsy arguments key VNone Hnull eq_refl)) as Hcall.
  assert (arg_blank (delete key arguments) key) as Habsent
    by (left; apply lookup_delete_eq).
  pose proof (missing_argument_returns U tool key _ Hreq
                (val_strip_or_blank _ key Habsent)) as Hcall'.
  split; [exact Hcall|]. split; [congruence|].
  intros c. rewrite Hcall. reflexivity.
Qed.

Lemma null_argument_is_reported_witness :
  call_tool ascii_only (u "get_stock_price") {[ u "symbol" := VNone ]}
  = Return (u "Error: 'symbol' parameter is required.").
Proof.
  rewrite <- required_error_symbol.
  refine (proj1 (null_argument_is_reported ascii_only (u "get_stock_price")
                   (u "symbol") {[ u "symbol" := VNone ]} _ _)).
  - apply list_elem_of_In. vm_compute. tauto.
  - apply lookup_singleton_eq.
Defined.

Lemma upper_strip_tcs (U : UnicodeData) :
  py_upper U (py_strip (u " tcs ")) = u "TCS".
Proof. vm_compute. reflexivity. Qed.

Lemma strip_tcs_nonempty : py_strip (u " tcs ") <> [].
Proof. vm_compute. discriminate. Qed.

Lemma after_market_call_no_call (c : Collaborators) (failed : bool)
    (text : pystr) (formatted : result pystr) :
  fst (run c (if failed then Return text else lift formatted)) = [].
Proof.
  destruct failed; [reflexivity|]. rewrite run_lift. reflexivity.
Qed.

(** C8. When the [symbol] argument is a text that is not empty after
    trimming, [call_tool] calls the market collaborator exactly once, with
    the trimmed and upper-cased symbol: without news and fundamentals for
    get_stock_price, with both for get_stock_analysis.  For the symbol
    [" tcs "] the collaborator is called with [TCS]. *)
Theorem symbol_is_normalised (U : UnicodeData) (arguments : gmap pystr pyval)
    (s : pystr) (c : Collaborators) :
  arguments !! u "symbol" = Some (VStr s) ->
  py_strip s <> [] ->
  fst (run c (call_tool U (u "get_stock_price") arguments))
  = [CallScrapeOne (py_upper U (py_strip s)) false false]
  /\ fst (run c (call_tool U (u "get_stock_analysis") arguments))
     = [CallScrapeOne (py_upper U (py_strip s)) true true]
  /\ fst (run c (call_tool U (u "get_stock_price")
                   {[ u "symbol" := VStr (u " tcs ") ]}))
     = [CallScrapeOne (u "TCS") false false].
Proof.
  intros Hk Hs. split; [|split].
  - rewrite (call_tool_price_symbol U arguments s Hk Hs).
    apply run_after_scrape_one. intros r.
    apply after_market_call_no_call.
  - rewrite (call_tool_analysis_symbol U arguments s Hk Hs).
    apply run_after_scrape_one. intros r.
    apply after_market_call_no_call.
  - rewrite (call_tool_price_symbol U _ (u " tcs ")
               (lookup_singleton_eq _ _) strip_tcs_nonempty).
    rewrite upper_strip_tcs.
    apply run_after_scrape_one. intros r.
    apply after_market_call_no_call.
Qed.

Lemma symbol_is_normalised_witness :
  fst (run (answering sample)
         (call_tool ascii_only (u "get_stock_price")
            {[ u "symbol" := VStr (u " tcs ") ]}))
  = [CallScrapeOne (u "TCS") false false].
Proof.
  rewrite <- (upper_strip_tcs ascii_only).
  exact (proj1 (symbol_is_normalised ascii_only
                  {[ u "symbol" := VStr (u " tcs ") ]} (u " tcs ")
                  (answering sample)
                  (lookup_singleton_eq _ _) strip_tcs_nonempty)).
Defined.

Lemma upper_strip_TCS (U : UnicodeData) :
  py_upper U (py_strip (u "TCS")) = u "TCS".
Proof. vm_compute. reflexivity. Qed.

Lemma strip_TCS_nonempty : py_strip (u "TCS") <> [].
Proof. vm_compute. discriminate. Qed.

Lemma rate_limited_text :
  u "Could not fetch price for " ++ u "TCS" ++ u ": " ++ u "rate limited"
  = u "Could not fetch price for TCS: rate limited".
Proof. vm_compute. reflexivity. Qed.

(** C4. When the market collaborator answers a get_stock_price call with a
    result whose [scraped_ok] is false, [call_tool] returns (it does not
    raise) the text [Could not fetch price for <symbol>: <error>], where
    <symbol> is the normalised symbol and <error> is the error of the result
    as an f-string renders it; the collaborator is called once.  For the
    symbol [TCS] and the error [rate limited] the text is
    [Could not fetch price for TCS: rate limited]. *)
Theorem failed_fetch_is_reported (U : UnicodeData) (arguments : gmap pystr pyval)
    (s : pystr) (c : Collaborators) (r : ScrapeResponse) :
  arguments !! u "symbol" = Some (VStr s) ->
  py_strip s <> [] ->
  market_scrape_one c (py_upper U (py_strip s)) false false = Ok r ->
  scraped_ok r = false ->
  run c (call_tool U (u "get_stock_price") arguments)
  = ([CallScrapeOne (py_upper U (py_strip s)) false false],
     Ok (u "Could not fetch price for " ++ py_upper U (py_strip s) ++ u ": "
         ++ fmt_str (error r)))
  /\ (forall e, error r = Some e -> fmt_str (error r) = e)
  /\ (s = u "TCS" -> error r = Some (u "rate limited") ->
      run c (call_tool U (u "get_stock_price") arguments)
      = ([CallScrapeOne (u "TCS") false false],
         Ok (u "Could not fetch price for TCS: rate limited"))).
Proof.
  intros Hk Hs Hc Hok.
  assert (run c (call_tool U (u "get_stock_price") arguments)
          = ([CallScrapeOne (py_upper U (py_strip s)) false false],
             Ok (u "Could not fetch price for " ++ py_upper U (py_strip s)
                 ++ u ": " ++ fmt_str (error r)))) as Hrun.
  { rewrite (call_tool_price_symbol U arguments s Hk Hs).
    cbn [run]. rewrite Hc, Hok. reflexivity. }
  split; [exact Hrun|]. split.
  - intros e ->. reflexivity.
  - intros -> He. rewrite Hrun, He, upper_strip_TCS. cbn [fmt_str].
    rewrite rate_limited_text. reflexivity.
Qed.

Lemma failed_fetch_is_reported_witness :
  run (answering sample_failed)
    (call_tool ascii_only (u "get_stock_price") {[ u "symbol" := VStr (u "TCS") ]})
  = ([CallScrapeOne (u "TCS") false false],
     Ok (u "Could not fetch price for TCS: rate limited")).
Proof.
  exact (proj2 (proj2 (failed_fetch_is_reported ascii_only
                         {[ u "symbol" := VStr (u "TCS") ]} (u "TCS")
                         (answering sample_failed) sample_failed
                         (lookup_singleton_eq _ _) strip_TCS_nonempty
                         eq_refl eq_refl))
           eq_refl eq_refl).
Defined.

(** ** The price line *)

Lemma price_line_value (r : ScrapeResponse) (lines : list pystr)
    (p c q : pyfloat) :
  price r = Some p -> change r = Some c -> change_pct r = Some q ->
  price_line r lines
  = Ok (lines ++ [u "Price: ₹" ++ format_fixed true 2 p
                  ++ u "  |  Change: " ++ (if float_ge0 c then u "+" else [])
                  ++ u "₹" ++ format_fixed false 2 c
                  ++ u " (" ++ (if float_ge0 c then u "+" else [])
                  ++ format_fixed false 2 q ++ u "%)"]).
Proof.
  intros Hp Hc Hq. unfold price_line. rewrite Hp, Hc, Hq. reflexivity.
Qed.

Lemma _fmt_price_lines_after_price (r : ScrapeResponse) (line : pystr) :
  price_line r [price_header r] = Ok ([price_header r] ++ [line]) ->
  exists rest,
    _fmt_price_lines r
    = if volume_printable r then Ok (price_header r :: line :: rest)
      else Raise int_str_error.
Proof.
  intros Hline. unfold _fmt_price_lines. cbn [app] in *. rewrite Hline.
  cbn [mbind result_bind].
  destruct (day_range_line_appends r [price_header r; line]) as [e2 ->].
  cbn [mbind result_bind].
  destruct (week_52_line_appends r ([price_header r; line] ++ e2)) as [e3 ->].
  cbn [mbind result_bind].
  destruct (volume_ma_parts_outcome r) as (parts & -> & _).
  destruct (volume_printable r); cbn [mbind result_bind]; [|exists []; reflexivity].
  destruct parts; rewrite <- !app_assoc; cbn [app]; eauto.
Qed.

Lemma tcs_price_line :
  u "Price: ₹" ++ format_fixed true 2 (float_lit 350000 2)
  ++ u "  |  Change: " ++ (if float_ge0 (float_lit 125 1) then u "+" else [])
  ++ u "₹" ++ format_fixed false 2 (float_lit 125 1)
  ++ u " (" ++ (if float_ge0 (float_lit 125 1) then u "+" else [])
  ++ format_fixed false 2 (float_lit 36 2) ++ u "%)"
  = u "Price: ₹3,500.00  |  Change: +₹12.50 (+0.36%)".
Proof. vm_compute. reflexivity. Qed.

(** C5. For a result whose price is 3500.00, whose change is 12.5 and whose
    change in percent is 0.36 (the binary64 numbers of these literals), the
    price line that [_fmt_price] appends is exactly
    [Price: ₹3,500.00  |  Change: +₹12.50 (+0.36%)], whatever the other
    fields are; it is the line after the header of the concise layout, which
    is the lines joined by a newline and is returned unless the volume has
    more than 4300 digits. *)
Theorem tcs_price_line_text (r : ScrapeResponse) :
  price r = Some (float_lit 350000 2) ->
  change r = Some (float_lit 125 1) ->
  change_pct r = Some (float_lit 36 2) ->
  (forall lines,
      price_line r lines
      = Ok (lines ++ [u "Price: ₹3,500.00  |  Change: +₹12.50 (+0.36%)"]))
  /\ exists rest,
       _fmt_price_lines r
       = (if volume_printable r
          then Ok (price_header r
                   :: u "Price: ₹3,500.00  |  Change: +₹12.50 (+0.36%)" :: rest)
          else Raise int_str_error)
       /\ _fmt_price r
          = (if volume_printable r
             then Ok (join nl (price_header r
                               :: u "Price: ₹3,500.00  |  Change: +₹12.50 (+0.36%)"
                               :: rest))
             else Raise int_str_error).
Proof.
  intros Hp Hc Hq.
  assert (forall lines,
             price_line r lines
             = Ok (lines ++ [u "Price: ₹3,500.00  |  Change: +₹12.50 (+0.36%)"]))
    as Hline.
  { intros lines. rewrite (price_line_value r lines _ _ _ Hp Hc Hq).
    rewrite tcs_price_line. reflexivity. }
  split; [exact Hline|].
  destruct (_fmt_price_lines_after_price r _ (Hline [price_header r]))
    as [rest Hrest].
  exists rest. split; [exact Hrest|].
  unfold _fmt_price. rewrite Hrest.
  destruct (volume_printable r); reflexivity.
Qed.

Lemma sample_price_text :
  _fmt_price sample
  = Ok (u "TCS (Tata Consultancy Services) | NSE" ++ nl
        ++ u "Price: ₹3,500.00  |  Change: +₹12.50 (+0.36%)" ++ nl
        ++ u "[Source: Yahoo Finance  |  As of: 2024-05-01T10:00:00]").
Proof. vm_compute. reflexivity. Qed.

Lemma tcs_price_line_text_witness :
  exists rest,
    _fmt_price_lines sample
    = Ok (price_header sample
          :: u "Price: ₹3,500.00  |  Change: +₹12.50 (+0.36%)" :: rest).
Proof.
  destruct (tcs_price_line_text sample eq_refl eq_refl eq_refl)
    as [_ [rest [H _]]].
  exists rest. exact H.
Defined.

(** ** The detailed layout *)

Lemma _fmt_analysis_outcome (U : UnicodeData) (r : ScrapeResponse) :
  exists before,
    _fmt_analysis U r
    = match analysis_failure r with
      | None => Ok (join nl (before ++ news_section r ++ [footer nl r]))
      | Some e => Raise e
      end.
Proof.
  unfold _fmt_analysis.
  destruct (analysis_sections_shape U r) as [before ->].
  exists before. destruct (analysis_failure r); reflexivity.
Qed.

Lemma analysis_failure_without_target (r : ScrapeResponse) :
  truthy_float (target_mean_price r) = true ->
  target_high_price r = None \/ target_low_price r = None ->
  analysis_failure r
  = Some (if volume_printable r && count_printable r
          then none_format_error else int_str_error).
Proof.
  intros Hmean Habsent.
  assert (targets_formattable r = false) as Hfmt.
  { unfold targets_formattable. rewrite Hmean.
    destruct Habsent as [-> | ->]; cbn [is_not_none andb]; [reflexivity|].
    apply andb_false_r. }
  unfold analysis_failure. rewrite Hfmt.
  destruct (volume_printable r), (count_printable r); reflexivity.
Qed.

Lemma shown_news_length (r : ScrapeResponse) :
  length (shown_news r) = Nat.min 5 (length (news r)).
Proof. unfold shown_news. rewrite enumerate_length. apply length_firstn. Qed.

Lemma shown_news_lookup (r : ScrapeResponse) (k : nat) (i : Z) (item : NewsItem) :
  shown_news r !! k = Some (i, item)
  <-> (k < 5)%nat /\ news r !! k = Some item /\ i = 1 + Z.of_nat k.
Proof.
  unfold shown_news. rewrite enumerate_lookup. split.
  - intros H. destruct (firstn 5 (news r) !! k) as [x|] eqn:Hx; [|discriminate].
    cbn in H. injection H as <- <-.
    assert (k < 5)%nat as Hk.
    { apply lookup_lt_Some in Hx. rewrite length_firstn in Hx. lia. }
    split; [exact Hk|]. split; [|reflexivity].
    rewrite <- Hx. symmetry. apply (lookup_take_lt (news r) 5 k Hk).
  - intros (Hk & Hitem & ->).
    change (firstn 5 (news r)) with (take 5 (news r)).
    rewrite (lookup_take_lt (news r) 5 k Hk), Hitem. reflexivity.
Qed.

(** C1. The claim fails on the code: when the mean target is there and not
    zero and the high or the low target is absent, [_fmt_analysis] returns
    no layout with a price-target line but raises: the [TypeError] of a
    format specification applied to [None], or, when the volume or the
    analyst count shown has more than 4300 digits, the [ValueError] that
    this raises earlier. *)
Theorem price_targets_raise_without_high_or_low (U : UnicodeData)
    (r : ScrapeResponse) :
  truthy_float (target_mean_price r) = true ->
  target_high_price r = None \/ target_low_price r = None ->
  _fmt_analysis U r
  = Raise (if volume_printable r && count_printable r
           then TypeError
                  (u "unsupported format string passed to NoneType.__format__")
           else int_str_error).
Proof.
  intros Hmean Habsent.
  destruct (_fmt_analysis_outcome U r) as [before ->].
  rewrite (analysis_failure_without_target r Hmean Habsent). reflexivity.
Qed.

Lemma price_targets_raise_without_high_or_low_witness :
  _fmt_analysis ascii_only sample_without_high_target
  = Raise (TypeError
             (u "unsupported format string passed to NoneType.__format__")).
Proof.
  apply (price_targets_raise_without_high_or_low ascii_only
           sample_without_high_target).
  - reflexivity.
  - left. reflexivity.
Defined.

(** C6. For a result with a non-empty news list, the [if r.news:] statement
    of the detailed layout never fails and appends the RECENT NEWS section:
    its heading, then two lines per item for the first min(5, length) items
    of the list, in the order of the list and numbered 1, 2, ...: the number
    and the title, then the publisher, the first 10 characters of the
    timestamp (or N/A without one) and the link.  [_fmt_analysis] returns
    the layout with that section last before the footer; but not for every
    such result: it raises, and shows no news, when the price-target line
    cannot be formatted (or an integer has more than 4300 digits). *)
Theorem recent_news_section (U : UnicodeData) (r : ScrapeResponse) :
  news r <> [] ->
  (forall sections,
      news_lines r sections
      = Ok (sections
            ++ (nl ++ u "── RECENT NEWS ──")
               :: flat_map news_item_lines (shown_news r)))
  /\ length (shown_news r) = Nat.min 5 (length (news r))
  /\ length (flat_map news_item_lines (shown_news r))
     = (2 * Nat.min 5 (length (news r)))%nat
  /\ (forall k i item,
        shown_news r !! k = Some (i, item)
        <-> (k < 5)%nat /\ news r !! k = Some item /\ i = 1 + Z.of_nat k)
  /\ (exists before,
        _fmt_analysis U r
        = match analysis_failure r with
          | None =>
              Ok (join nl (before
                           ++ ((nl ++ u "── RECENT NEWS ──")
                               :: flat_map news_item_lines (shown_news r))
                           ++ [footer nl r]))
          | Some e => Raise e
          end)
  /\ (truthy_float (target_mean_price r) = true ->
      target_high_price r = None \/ target_low_price r = None ->
      exists e, _fmt_analysis U r = Raise e).
Proof.
  intros Hnews.
  assert (news_section r
          = (nl ++ u "── RECENT NEWS ──") :: flat_map news_item_lines (shown_news r))
    as Hsection.
  { unfold news_section. destruct (news r); [congruence | reflexivity]. }
  split; [intros sections; rewrite news_lines_section, Hsection; reflexivity|].
  split; [apply shown_news_length|].
  split; [rewrite flat_map_news_length, shown_news_length; reflexivity|].
  split; [apply shown_news_lookup|].
  destruct (_fmt_analysis_outcome U r) as [before Hout].
  split.
  - exists before. rewrite Hout, Hsection. reflexivity.
  - intros Hmean Habsent. rewrite Hout.
    rewrite (analysis_failure_without_target r Hmean Habsent). eauto.
Qed.

Lemma sample_analysis_text :
  _fmt_analysis ascii_only sample
  = Ok (repeat_char "=" 60 ++ nl
        ++ u "TCS  —  Tata Consultancy Services" ++ nl
        ++ repeat_char "=" 60 ++ nl
        ++ nl ++ u "── PRICE ──" ++ nl
        ++ u "TCS (Tata Consultancy Services) | NSE" ++ nl
        ++ u "Price: ₹3,500.00  |  Change: +₹12.50 (+0.36%)" ++ nl
        ++ u "[Source: Yahoo Finance  |  As of: 2024-05-01T10:00:00]" ++ nl
        ++ nl ++ u "── RECENT NEWS ──" ++ nl
        ++ u "1. Results beat estimates" ++ nl
        ++ u "   Mint  |  2024-05-01  |  https://example.com/tcs" ++ nl
        ++ nl ++ u "[Source: Yahoo Finance  |  As of: 2024-05-01T10:00:00]").
Proof. vm_compute. reflexivity. Qed.

Lemma sample_without_low_target_has_news :
  news sample_without_low_target <> [].
Proof. discriminate. Qed.

Lemma recent_news_section_witness :
  news sample_without_low_target = [sample_news]
  /\ exists e, _fmt_analysis ascii_only sample_without_low_target = Raise e.
Proof.
  split; [reflexivity|].
  apply (proj2 (proj2 (proj2 (proj2 (proj2
           (recent_news_section ascii_only sample_without_low_target
              sample_without_low_target_has_news)))))).
  - reflexivity.
  - right. reflexivity.
Defined.

Lemma sample_without_low_target_raises :
  _fmt_analysis ascii_only sample_without_low_target = Raise none_format_error.
Proof. vm_compute. reflexivity. Qed.

(** ** Fields that are exactly zero *)















Lemma sample_volume_cleared_text :
  _fmt_price (clear_field F_volume sample)
  = Ok (u "TCS (Tata Consultancy Services) | NSE" ++ nl
        ++ u "Price: ₹3,500.00  |  Change: +₹12.50 (+0.36%)" ++ nl
        ++ u "[Source: Yahoo Finance  |  As of: 2024-05-01T10:00:00]").
Proof. vm_compute. reflexivity. Qed.


(** * Further properties of the code *)

(** ** Trimming *)

Lemma lstrip_split (s : pystr) :
  exists a, s = a ++ lstrip s /\ blank a
            /\ (forall c, head (lstrip s) = Some c -> py_isspace c = false).
Proof.
  induction s as [|c s (a & Hs & Ha & Hh)]; cbn [lstrip].
  - exists []. repeat split. intros c Hc. discriminate Hc.
  - destruct (py_isspace c) eqn:Hc.
    + exists (c :: a). split; [cbn; congruence|]. split; [|exact Hh].
      unfold blank in *. cbn [forallb]. rewrite Hc, Ha. reflexivity.
    + exists []. repeat split. intros c' Hc'. cbn in Hc'. congruence.
Qed.

Lemma last_rev_head {A} (l : list A) : last l = head (rev l).
Proof.
  induction l as [|x l IH] using rev_ind; [reflexivity|].
  rewrite last_snoc, rev_app_distr. reflexivity.
Qed.

Lemma blank_rev (s : pystr) : blank s -> blank (rev s).
Proof.
  unfold blank. rewrite !forallb_forall. intros H c Hc.
  apply H, in_rev. exact Hc.
Qed.

Lemma rstrip_split (s : pystr) :
  exists b, s = rstrip s ++ b /\ blank b
            /\ (forall c, last (rstrip s) = Some c -> py_isspace c = false).
Proof.
  unfold rstrip. destruct (lstrip_split (rev s)) as (a & Hs & Ha & Hh).
  exists (rev a). split; [|split].
  - rewrite <- rev_app_distr, <- Hs, rev_involutive. reflexivity.
  - apply blank_rev, Ha.
  - intros c Hc. rewrite last_rev_head, rev_involutive in Hc. exact (Hh c Hc).
Qed.

Lemma py_strip_split (s : pystr) :
  exists a b, s = a ++ py_strip s ++ b /\ blank a /\ blank b
              /\ trimmed (py_strip s).
Proof.
  destruct (lstrip_split s) as (a & Hs & Ha & Hh).
  destruct (rstrip_split (lstrip s)) as (b & Hl & Hb & Ht).
  exists a, b. unfold py_strip. split; [congruence|].
  split; [exact Ha|]. split; [exact Hb|]. split; [|exact Ht].
  intros c Hc. apply Hh. rewrite Hl.
  destruct (rstrip (lstrip s)); [discriminate Hc | exact Hc].
Qed.

Lemma lstrip_trimmed (s : pystr) :
  (forall c, head s = Some c -> py_isspace c = false) -> lstrip s = s.
Proof.
  destruct s as [|c s]; [reflexivity|]. intros H. cbn [lstrip].
  rewrite (H c eq_refl). reflexivity.
Qed.

Lemma py_strip_trimmed (s : pystr) : trimmed s -> py_strip s = s.
Proof.
  intros [Hh Ht]. unfold py_strip, rstrip. rewrite (lstrip_trimmed s Hh).
  rewrite lstrip_trimmed; [apply rev_involutive|].
  intros c Hc. apply Ht. rewrite last_rev_head. exact Hc.
Qed.

Lemma py_strip_idempotent (s : pystr) : py_strip (py_strip s) = py_strip s.
Proof.
  destruct (py_strip_split s) as (a & b & _ & _ & _ & Ht).
  exact (py_strip_trimmed _ Ht).
Qed.

(** ** Running the dispatcher *)

Lemma run_await_scrape_one {A} (c : Collaborators) (sym : pystr) (n f : bool)
    (k : ScrapeResponse -> tool_io A) (h : ScrapeResponse -> result A) :
  (forall r, k r = lift (h r)) ->
  run c (AwaitScrapeOne sym n f k)
  = ([CallScrapeOne sym n f], r ← market_scrape_one c sym n f; h r).
Proof.
  intros Hk. cbn [run].
  destruct (market_scrape_one c sym n f) as [r|e]; [|reflexivity].
  rewrite Hk, run_lift. reflexivity.
Qed.

Lemma lift_if {A} (b : bool) (t : A) (x : result A) :
  (if b then Return t else lift x) = lift (if b then Ok t else x).
Proof. destruct b; reflexivity. Qed.

Lemma call_tool_scrape_url (U : UnicodeData) (arguments : gmap pystr pyval)
    (s : pystr) :
  arguments !! u "url" = Some (VStr s) -> py_strip s <> [] ->
  call_tool U (u "scrape_url") arguments = AwaitScrapeUrl (py_strip s) Return.
Proof.
  intros Hk Hs. unfold call_tool.
  rewrite (decide_False _ _ scrape_is_not_price).
  rewrite (decide_False _ _ scrape_is_not_analysis).
  rewrite decide_True by reflexivity.
  rewrite (val_strip_or_text _ _ _ Hk). cbn [lift mbind tool_io_mbind tool_io_bind].
  destruct (py_strip s); [congruence | reflexivity].
Qed.

(** X1. scrape_url with a text that is not blank: the scraper is called
    once, with the argument without its surrounding whitespace (what is
    between is kept), and its outcome is the outcome of the call, text or
    exception, unchanged. *)
Theorem scrape_url_passes_trimmed_url (U : UnicodeData)
    (arguments : gmap pystr pyval) (s : pystr) (c : Collaborators) :
  arguments !! u "url" = Some (VStr s) ->
  py_strip s <> [] ->
  run c (call_tool U (u "scrape_url") arguments)
  = ([CallScrapeUrl (py_strip s)], web_scrape_url c (py_strip s))
  /\ exists a b, s = a ++ py_strip s ++ b /\ blank a /\ blank b
                 /\ trimmed (py_strip s).
Proof.
  intros Hk Hs. split; [|apply py_strip_split].
  rewrite (call_tool_scrape_url U arguments s Hk Hs). cbn [run].
  destruct (web_scrape_url c (py_strip s)); reflexivity.
Qed.

Lemma strip_padded_url : py_strip (u "  https://example.com/a b  ") <> [].
Proof. vm_compute. discriminate. Qed.

Lemma strip_padded_url_value :
  py_strip (u "  https://example.com/a b  ") = u "https://example.com/a b".
Proof. vm_compute. reflexivity. Qed.

Lemma scrape_url_passes_trimmed_url_witness :
  run (serving (u "page text"))
    (call_tool ascii_only (u "scrape_url")
       {[ u "url" := VStr (u "  https://example.com/a b  ") ]})
  = ([CallScrapeUrl (u "https://example.com/a b")], Ok (u "page text")).
Proof.
  rewrite <- strip_padded_url_value.
  exact (proj1 (scrape_url_passes_trimmed_url ascii_only _ _
                  (serving (u "page text"))
                  (lookup_singleton_eq _ _) strip_padded_url)).
Defined.

(** X2. get_stock_price with a symbol that is not blank: one call of the
    market collaborator; if it raises, the exception goes through; if it
    answers, the dispatcher returns a text (the concise layout of the answer
    when [scraped_ok], the failure text otherwise), except for one answer:
    [scraped_ok] with a volume of more than 4300 digits, for which the
    [ValueError] of the integer conversion is raised. *)
Theorem get_stock_price_outcome (U : UnicodeData) (arguments : gmap pystr pyval)
    (s : pystr) (c : Collaborators) :
  arguments !! u "symbol" = Some (VStr s) ->
  py_strip s <> [] ->
  run c (call_tool U (u "get_stock_price") arguments)
  = ([CallScrapeOne (py_upper U (py_strip s)) false false],
     r ← market_scrape_one c (py_upper U (py_strip s)) false false;
     if scraped_ok r then _fmt_price r
     else Ok (u "Could not fetch price for " ++ py_upper U (py_strip s)
              ++ u ": " ++ fmt_str (error r)))
  /\ (forall r, market_scrape_one c (py_upper U (py_strip s)) false false = Ok r ->
      exists text,
        snd (run c (call_tool U (u "get_stock_price") arguments))
        = if negb (scraped_ok r) || volume_printable r then Ok text
          else Raise int_str_error)
  /\ (forall e, market_scrape_one c (py_upper U (py_strip s)) false false = Raise e ->
      snd (run c (call_tool U (u "get_stock_price") arguments)) = Raise e).
Proof.
  intros Hk Hs.
  assert (run c (call_tool U (u "get_stock_price") arguments)
          = ([CallScrapeOne (py_upper U (py_strip s)) false false],
             r ← market_scrape_one c (py_upper U (py_strip s)) false false;
             if scraped_ok r then _fmt_price r
             else Ok (u "Could not fetch price for " ++ py_upper U (py_strip s)
                      ++ u ": " ++ fmt_str (error r)))) as Hrun.
  { rewrite (call_tool_price_symbol U arguments s Hk Hs).
    apply run_await_scrape_one. intros r. rewrite lift_if.
    destruct (scraped_ok r); reflexivity. }
  split; [exact Hrun|]. rewrite Hrun. cbn [snd]. split.
  - intros r ->. cbn [mbind result_bind].
    destruct (scraped_ok r); cbn [negb orb]; [apply _fmt_price_outcome | eauto].
  - intros e ->. reflexivity.
Qed.

Lemma get_stock_price_outcome_witness :
  snd (run (answering sample)
         (call_tool ascii_only (u "get_stock_price")
            {[ u "symbol" := VStr (u "TCS") ]}))
  = Ok (u "TCS (Tata Consultancy Services) | NSE" ++ nl
        ++ u "Price: ₹3,500.00  |  Change: +₹12.50 (+0.36%)" ++ nl
        ++ u "[Source: Yahoo Finance  |  As of: 2024-05-01T10:00:00]").
Proof.
  rewrite (proj1 (get_stock_price_outcome ascii_only
                    {[ u "symbol" := VStr (u "TCS") ]} (u "TCS")
                    (answering sample)
                    (lookup_singleton_eq _ _) strip_TCS_nonempty)).
  vm_compute. reflexivity.
Defined.

(** X3. get_stock_analysis with a symbol that is not blank: one call of the
    market collaborator with news and fundamentals.  A failed fetch gives
    the text [Could not fetch analysis for <symbol>: <error>] and its fields
    are never formatted; an answer with [scraped_ok] gives the outcome of
    the detailed layout, so the dispatcher raises exactly when the answer is
    [scraped_ok] and the layout fails on it ([analysis_failure]: an integer
    of more than 4300 digits, or a price-target line that cannot be
    formatted), with the exception of that failure. *)
Theorem get_stock_analysis_outcome (U : UnicodeData)
    (arguments : gmap pystr pyval) (s : pystr) (c : Collaborators)
    (r : ScrapeResponse) :
  arguments !! u "symbol" = Some (VStr s) ->
  py_strip s <> [] ->
  market_scrape_one c (py_upper U (py_strip s)) true true = Ok r ->
  run c (call_tool U (u "get_stock_analysis") arguments)
  = ([CallScrapeOne (py_upper U (py_strip s)) true true],
     if scraped_ok r then _fmt_analysis U r
     else Ok (u "Could not fetch analysis for " ++ py_upper U (py_strip s)
              ++ u ": " ++ fmt_str (error r)))
  /\ exists text,
       snd (run c (call_tool U (u "get_stock_analysis") arguments))
       = match (if scraped_ok r then analysis_failure r else None) with
         | None => Ok text
         | Some e => Raise e
         end.
Proof.
  intros Hk Hs Hc.
  assert (run c (call_tool U (u "get_stock_analysis") arguments)
          = ([CallScrapeOne (py_upper U (py_strip s)) true true],
             if scraped_ok r then _fmt_analysis U r
             else Ok (u "Could not fetch analysis for " ++ py_upper U (py_strip s)
                      ++ u ": " ++ fmt_str (error r)))) as Hrun.
  { rewrite (call_tool_analysis_symbol U arguments s Hk Hs).
    rewrite (run_await_scrape_one c _ true true _
               (fun r => if scraped_ok r then _fmt_analysis U r
                         else Ok (u "Could not fetch analysis for "
                                  ++ py_upper U (py_strip s)
                                  ++ u ": " ++ fmt_str (error r)))).
    - rewrite Hc. reflexivity.
    - intros r'. rewrite lift_if. destruct (scraped_ok r'); reflexivity. }
  split; [exact Hrun|]. rewrite Hrun. cbn [snd].
  destruct (scraped_ok r); [|eauto].
  destruct (_fmt_analysis_outcome U r) as [before ->].
  destruct (analysis_failure r); eauto.
Qed.

Lemma get_stock_analysis_outcome_witness :
  snd (run (answering sample_without_high_target)
         (call_tool ascii_only (u "get_stock_analysis")
            {[ u "symbol" := VStr (u "TCS") ]}))
  = Raise none_format_error.
Proof.
  destruct (proj2 (get_stock_analysis_outcome ascii_only
                     {[ u "symbol" := VStr (u "TCS") ]} (u "TCS")
                     (answering sample_without_high_target)
                     sample_without_high_target
                     (lookup_singleton_eq _ _) strip_TCS_nonempty eq_refl))
    as [text H].
  exact H.
Defined.

Lemma sample_without_high_target_failure :
  analysis_failure sample_without_high_target = Some none_format_error.
Proof. vm_compute. reflexivity. Qed.

(** ** Argument values that are not texts *)

Lemma call_tool_strip_raises (U : UnicodeData) (tool key : pystr)
    (arguments : gmap pystr pyval) (e : exn) :
  (tool, key) ∈ required_arguments ->
  val_strip (py_or (dict_get arguments key) (VStr [])) = Raise e ->
  call_tool U tool arguments = Throw e.
Proof.
  intros Hreq Hv.
  destruct (required_arguments_cases _ _ Hreq) as [[-> ->] | [[-> ->] | [-> ->]]];
    unfold call_tool.
  - rewrite decide_True by reflexivity. rewrite Hv. reflexivity.
  - rewrite (decide_False _ _ analysis_is_not_price).
    rewrite decide_True by reflexivity. rewrite Hv. reflexivity.
  - rewrite (decide_False _ _ scrape_is_not_price).
    rewrite (decide_False _ _ scrape_is_not_analysis).
    rewrite decide_True by reflexivity. rewrite Hv. reflexivity.
Qed.

(** X4. A required argument bound to any value that Python counts as false
    (None, False, 0, 0.0, the empty text, list or mapping) is treated as
    missing: the required-parameter text is returned and no collaborator is
    called. *)
Theorem falsy_argument_is_missing (U : UnicodeData) (tool key : pystr)
    (arguments : gmap pystr pyval) (v : pyval) :
  (tool, key) ∈ required_arguments ->
  arguments !! key = Some v ->
  truthy v = false ->
  call_tool U tool arguments = Return (required_error key)
  /\ forall c : Collaborators,
       run c (call_tool U tool arguments) = ([], Ok (required_error key)).
Proof.
  intros Hreq Hk Hv.
  pose proof (missing_argument_returns U tool key arguments Hreq
                (val_strip_or_falsy arguments key v Hk Hv)) as Hcall.
  split; [exact Hcall|]. intros c. rewrite Hcall. reflexivity.
Qed.

Lemma falsy_argument_is_missing_witness :
  call_tool ascii_only (u "scrape_url") {[ u "url" := VInt 0 ]}
  = Return (required_error (u "url")).
Proof.
  refine (proj1 (falsy_argument_is_missing ascii_only (u "scrape_url") (u "url")
                   {[ u "url" := VInt 0 ]} (VInt 0) _ _ _)).
  - apply list_elem_of_In. vm_compute. tauto.
  - apply lookup_singleton_eq.
  - reflexivity.
Defined.

(** X5. A required argument bound to a value that is true but is not a
    text (a number, True, a non-empty list or mapping) makes the dispatcher
    raise an [AttributeError] for the missing [strip] method; it returns no
    text and calls no collaborator. *)
Theorem non_text_argument_raises (U : UnicodeData) (tool key : pystr)
    (arguments : gmap pystr pyval) (v : pyval) :
  (tool, key) ∈ required_arguments ->
  arguments !! key = Some v ->
  truthy v = true ->
  (forall s, v <> VStr s) ->
  forall c : Collaborators,
    run c (call_tool U tool arguments)
    = ([], Raise (AttributeError
                    (u "'" ++ type_name v
                     ++ u "' object has no attribute 'strip'"))).
Proof.
  intros Hreq Hk Hv Hns c.
  rewrite (call_tool_strip_raises U tool key arguments
             (AttributeError (u "'" ++ type_name v
                              ++ u "' object has no attribute 'strip'")) Hreq).
  - reflexivity.
  - unfold dict_get. rewrite Hk. cbn [default from_option id].
    unfold py_or. rewrite Hv.
    destruct v; try reflexivity. destruct (Hns s eq_refl).
Qed.

Lemma int_has_no_strip :
  u "'" ++ type_name (VInt 500325) ++ u "' object has no attribute 'strip'"
  = u "'int' object has no attribute 'strip'".
Proof. vm_compute. reflexivity. Qed.

Lemma non_text_argument_raises_witness :
  run (answering sample)
    (call_tool ascii_only (u "get_stock_price") {[ u "symbol" := VInt 500325 ]})
  = ([], Raise (AttributeError (u "'int' object has no attribute 'strip'"))).
Proof.
  rewrite <- int_has_no_strip.
  refine (non_text_argument_raises ascii_only (u "get_stock_price") (u "symbol")
            {[ u "symbol" := VInt 500325 ]} (VInt 500325) _ _ _ _ _).
  - apply list_elem_of_In. vm_compute. tauto.
  - apply lookup_singleton_eq.
  - reflexivity.
  - discriminate.
Defined.

(** X6. The dispatcher reads nothing of the argument mapping but the
    required argument of the tool: two mappings that bind it alike give the
    same coroutine, whatever else they hold. *)
Theorem other_arguments_are_ignored (U : UnicodeData) (tool key : pystr)
    (arguments arguments' : gmap pystr pyval) :
  (tool, key) ∈ required_arguments ->
  arguments !! key = arguments' !! key ->
  call_tool U tool arguments = call_tool U tool arguments'.
Proof.
  intros Hreq Hsame.
  assert (dict_get arguments key = dict_get arguments' key) as Hget
    by (unfold dict_get; rewrite Hsame; reflexivity).
  destruct (required_arguments_cases _ _ Hreq) as [[-> ->] | [[-> ->] | [-> ->]]];
    unfold call_tool; rewrite Hget; reflexivity.
Qed.

Lemma other_arguments_are_ignored_witness :
  call_tool ascii_only (u "get_stock_price")
    {[ u "symbol" := VStr (u "TCS") ]}
  = call_tool ascii_only (u "get_stock_price")
      (<[ u "exchange" := VStr (u "BSE") ]> {[ u "symbol" := VStr (u "TCS") ]}).
Proof.
  refine (other_arguments_are_ignored ascii_only (u "get_stock_price")
            (u "symbol") _ _ _ _).
  - apply list_elem_of_In. vm_compute. tauto.
  - rewrite lookup_insert_ne; [reflexivity|].
    intros H. vm_compute in H. discriminate H.
Defined.

(** X7. The registry and the dispatcher agree: [call_tool] raises a
    [ValueError] (the unknown-tool error) exactly for the names that are not
    names of [TOOLS]; every registered name has a branch. *)
Theorem registered_tools_are_dispatched (U : UnicodeData) (tool : pystr)
    (arguments : gmap pystr pyval) :
  (exists msg, call_tool U tool arguments = Throw (ValueError msg))
  <-> tool ∉ map name list_tools.
Proof.
  unfold list_tools. fold available. split.
  - intros [msg Hthrow] Hin. rewrite available_names in Hin.
    assert (exists key, (tool, key) ∈ required_arguments) as [key Hreq].
    { apply list_elem_of_In in Hin. cbn [In] in Hin.
      destruct Hin as [<- | [<- | [<- | []]]]; eexists;
        apply list_elem_of_In; vm_compute; tauto. }
    destruct (val_strip (py_or (dict_get arguments key) (VStr []))) as [t|e] eqn:Hv.
    + destruct (required_arguments_cases _ _ Hreq)
        as [[-> ->] | [[-> ->] | [-> ->]]]; revert Hthrow; unfold call_tool;
        rewrite ?(decide_False _ _ analysis_is_not_price),
          ?(decide_False _ _ scrape_is_not_price),
          ?(decide_False _ _ scrape_is_not_analysis);
        rewrite decide_True by reflexivity; rewrite Hv;
        cbn [lift mbind tool_io_mbind tool_io_bind];
        match goal with |- context [is_empty ?x] => destruct (is_empty x) end;
        discriminate.
    + rewrite (call_tool_strip_raises U tool key arguments e Hreq Hv) in Hthrow.
      injection Hthrow as ->.
      unfold py_or in Hv.
      destruct (truthy (dict_get arguments key)); [|discriminate Hv].
      destruct (dict_get arguments key); discriminate Hv.
  - intros Hn. destruct (not_available tool Hn) as (H1 & H2 & H3).
    eexists. unfold call_tool.
    rewrite (decide_False _ _ H1), (decide_False _ _ H2), (decide_False _ _ H3).
    reflexivity.
Qed.

(** ** The server *)

Lemma run_bind_return {A B} (c : Collaborators) (m : tool_io A) (g : A -> B) :
  run c (tool_io_bind (fun a => Return (g a)) m)
  = (fst (run c m), result_map g (snd (run c m))).
Proof.
  induction m as [a | e | sym n f k IH | url k IH]; cbn [tool_io_bind run];
    try reflexivity.
  - destruct (market_scrape_one c sym n f) as [r|e]; [|reflexivity].
    rewrite IH. destruct (run c (k r)). reflexivity.
  - destruct (web_scrape_url c url) as [t|e]; [|reflexivity].
    rewrite IH. destruct (run c (k t)). reflexivity.
Qed.

(** X8. The server handler adds nothing to a dispatch but the wrapping:
    run against any collaborators, [_call_tool] makes the calls of
    [call_tool]; when [call_tool] returns a text the handler returns one
    content item of type [text] holding it, and when [call_tool] raises the
    handler raises the same exception. *)
Theorem server_wraps_the_text (U : UnicodeData) (tool : pystr)
    (arguments : gmap pystr pyval) (c : Collaborators) :
  run c (_call_tool U tool arguments)
  = (fst (run c (call_tool U tool arguments)),
     result_map (fun t => [ {| content_type := u "text"; text := t |} ])
       (snd (run c (call_tool U tool arguments)))).
Proof. unfold _call_tool. apply run_bind_return. Qed.

(** ** The lines of the concise layout *)

Lemma price_line_counted (r : ScrapeResponse) (lines : list pystr) :
  exists ext, price_line r lines = Ok (lines ++ ext)
              /\ length ext = count_true [is_not_none (price r)].
Proof.
  unfold price_line.
  destruct (price r) as [p|]; cbn [is_not_none count_true].
  - destruct (change r) as [c|], (change_pct r) as [q|];
      cbn [is_not_none andb ge0 fmt_f mbind result_bind]; eauto.
  - exists []. rewrite app_nil_r. split; reflexivity.
Qed.

Lemma day_range_line_counted (r : ScrapeResponse) (lines : list pystr) :
  exists ext, day_range_line r lines = Ok (lines ++ ext)
              /\ length ext
                 = count_true [is_not_none (day_low r) && is_not_none (day_high r)].
Proof.
  unfold day_range_line.
  destruct (day_low r) as [lo|], (day_high r) as [hi|];
    cbn [is_not_none andb count_true];
    try (exists []; rewrite app_nil_r; split; reflexivity).
  destruct (prev_close r) as [[]|];
    cbn [truthy_float float_truthy fmt_f mbind result_bind]; eauto.
Qed.

Lemma week_52_line_counted (r : ScrapeResponse) (lines : list pystr) :
  exists ext, week_52_line r lines = Ok (lines ++ ext)
              /\ length ext
                 = count_true [is_not_none (week_52_low r)
                               && is_not_none (week_52_high r)].
Proof.
  unfold week_52_line.
  destruct (week_52_low r) as [lo|], (week_52_high r) as [hi|];
    cbn [is_not_none andb fmt_f mbind result_bind count_true]; eauto;
    exists []; rewrite app_nil_r; split; reflexivity.
Qed.

Lemma count_true_four (a b c d : bool) :
  count_true [a; b; c; d]
  = (count_true [a] + count_true [b] + count_true [c] + count_true [d])%nat.
Proof. destruct a, b, c, d; reflexivity. Qed.

Lemma joined_parts_counted (a b c : bool) (parts : list pystr) :
  length parts = count_true [a; b; c] ->
  length (match parts with
          | [] => []
          | _ :: _ => [join (u "  |  ") parts]
          end)
  = count_true [a || b || c].
Proof.
  destruct a, b, c, parts; cbn [count_true orb length]; congruence.
Qed.

(** X9. The concise layout can fail in one way only: it is returned unless
    the volume has more than 4300 digits, for which the [ValueError] of the
    integer conversion is raised.  Its first line is the header, its last
    line the footer with the timestamp cut to 19 characters, and between
    them there is exactly one line for each of the four tests that holds:
    price present; both day bounds present; both 52-week bounds present;
    volume or a moving average present and not zero. *)
Theorem concise_layout_lines (r : ScrapeResponse) :
  exists middle,
    _fmt_price_lines r
    = (if volume_printable r
       then Ok (price_header r :: middle ++ [footer [] r])
       else Raise int_str_error)
    /\ _fmt_price r
       = (if volume_printable r
          then Ok (join nl (price_header r :: middle ++ [footer [] r]))
          else Raise int_str_error)
    /\ (volume_printable r = true -> length middle = count_true (concise_tests r))
    /\ footer [] r
       = u "[Source: Yahoo Finance  |  As of: " ++ firstn 19 (timestamp r) ++ u "]".
Proof.
  assert (exists middle,
            _fmt_price_lines r
            = (if volume_printable r
               then Ok (price_header r :: middle ++ [footer [] r])
               else Raise int_str_error)
            /\ (volume_printable r = true
                -> length middle = count_true (concise_tests r)))
    as (middle & Hlines & Hcount).
  { unfold _fmt_price_lines. cbn [app].
    destruct (price_line_counted r [price_header r]) as (e1 & -> & H1).
    cbn [mbind result_bind].
    destruct (day_range_line_counted r ([price_header r] ++ e1)) as (e2 & -> & H2).
    cbn [mbind result_bind].
    destruct (week_52_line_counted r (([price_header r] ++ e1) ++ e2))
      as (e3 & -> & H3).
    cbn [mbind result_bind].
    destruct (volume_ma_parts_outcome r) as (parts & -> & H4).
    destruct (volume_printable r); cbn [mbind result_bind];
      [|exists []; split; [reflexivity | discriminate]].
    exists (e1 ++ e2 ++ e3
            ++ match parts with [] => [] | _ :: _ => [join (u "  |  ") parts] end).
    split.
    - destruct parts; rewrite <- !app_assoc; cbn [app]; rewrite ?app_nil_r;
        reflexivity.
    - intros _.
      rewrite !length_app, H1, H2, H3, (joined_parts_counted _ _ _ _ (H4 eq_refl)).
      unfold concise_tests. rewrite count_true_four. lia. }
  exists middle. split; [exact Hlines|]. split; [|split; [exact Hcount|]].
  - unfold _fmt_price. rewrite Hlines.
    destruct (volume_printable r); cbn [mbind result_bind]; reflexivity.
  - unfold footer, slice_to. apply app_nil_l.
Qed.

(** ** The fundamentals block *)

Lemma fund_line_counted (guard : bool) (label : string) (value : result pystr)
    (unit : string) (fund : list pystr) :
  (guard = true -> exists v, value = Ok v) ->
  exists fund', fund_line guard label value unit fund = Ok fund'
                /\ length fund' = (length fund + count_true [guard])%nat.
Proof.
  intros Hv. unfold fund_line. destruct guard.
  - destruct (Hv eq_refl) as [v ->]. cbn [mbind result_bind].
    eexists. split; [reflexivity|]. rewrite length_app. reflexivity.
  - exists fund. split; [reflexivity|]. cbn [count_true]. lia.
Qed.

Lemma count_true_cons (b : bool) (tests : list bool) :
  count_true (b :: tests) = (count_true [b] + count_true tests)%nat.
Proof. destruct b; reflexivity. Qed.

(** X10. The fundamentals block never fails, and it has exactly one line
    for each of the twelve fundamentals fields that is present and not
    zero: no heading without lines, no line for an absent or zero field. *)
Theorem fundamentals_block_lines (r : ScrapeResponse) :
  exists fund,
    fund_lines r = Ok fund
    /\ length fund = count_true (fundamentals_tests r)
    /\ (fund = [] <-> Forall (fun test => test = false) (fundamentals_tests r)).
Proof.
  assert (exists fund, fund_lines r = Ok fund
                       /\ length fund = count_true (fundamentals_tests r))
    as (fund & Hfund & Hcount).
  { unfold fund_lines, fundamentals_tests.
    repeat
      match goal with
      | |- exists _, mbind _ (fund_line ?g ?l ?v ?un ?f) = _ /\ _ =>
          let H := fresh in
          let Hl := fresh "Hl" in
          assert (H : exists f', fund_line g l v un f = Ok f'
                                 /\ length f' = (length f + count_true [g])%nat)
            by (apply fund_line_counted;
                first [ apply fmt_f_truthy
                      | apply scaled_fmt_truthy; tauto ]);
          destruct H as (? & -> & Hl); cbn [mbind result_bind]
      end.
    match goal with
    | |- exists _, fund_line ?g ?l ?v ?un ?f = _ /\ _ =>
        destruct (fund_line_counted g l v un f (fmt_f_truthy _ _ _))
          as (fund & Hfund & Hlast)
    end.
    exists fund. split; [exact Hfund|].
    rewrite !(count_true_cons _ (_ :: _)). cbn [length] in *. lia. }
  exists fund. split; [exact Hfund|]. split; [exact Hcount|].
  rewrite <- length_zero_iff_nil, Hcount.
  generalize (fundamentals_tests r). intros tests.
  induction tests as [|[] tests IH]; cbn [count_true].
  - split; [constructor | reflexivity].
  - split; [discriminate | intros H; inversion H; discriminate].
  - rewrite IH. split; [intros H; constructor; [reflexivity | exact H]
                       | intros H; inversion H; assumption].
Qed.

(** ** What the detailed layout is made of *)

Lemma description_lines (r : ScrapeResponse) :
  exists d : list pystr, (length d <= 1)%nat
    /\ forall secs : list pystr,
         (if truthy_str (description r)
          then (d ← strip_opt (description r);
                Ok (secs ++ [nl ++ u "Business: " ++ d]))
          else Ok secs) = Ok (secs ++ d).
Proof.
  destruct (description r) as [[|c s]|];
    cbn [truthy_str strip_opt mbind result_bind].
  - exists []. split; [cbn; lia|]. intros. rewrite app_nil_r. reflexivity.
  - eexists [_]. split; [cbn; lia|]. intros. reflexivity.
  - exists []. split; [cbn; lia|]. intros. rewrite app_nil_r. reflexivity.
Qed.

(** X11. When the detailed layout does not fail ([analysis_failure] is
    [None]), [_fmt_analysis] returns the sections joined by a newline, and
    the sections are: the banner, the symbol and name, the banner; at most
    two lines of sector/industry and business; the PRICE heading followed by
    the whole concise layout of the same result as one section; the later
    blocks; the footer. *)
Theorem detailed_layout_embeds_concise (U : UnicodeData) (r : ScrapeResponse) :
  analysis_failure r = None ->
  exists intro p later,
    _fmt_price r = Ok p
    /\ (length intro <= 2)%nat
    /\ _fmt_analysis_sections U r
       = Ok ([repeat_char "=" 60;
              symbol r ++ u "  —  " ++ str_or (company_name r) (symbol r);
              repeat_char "=" 60]
             ++ intro ++ [nl ++ u "── PRICE ──"; p] ++ later
             ++ [footer nl r])
    /\ _fmt_analysis U r
       = Ok (join nl
               ([repeat_char "=" 60;
                 symbol r ++ u "  —  " ++ str_or (company_name r) (symbol r);
                 repeat_char "=" 60]
                ++ intro ++ [nl ++ u "── PRICE ──"; p] ++ later
                ++ [footer nl r])).
Proof.
  intros Hok.
  assert (volume_printable r = true /\ count_printable r = true
          /\ targets_formattable r = true) as (Hvol & Hcount & Hfmt).
  { unfold analysis_failure in Hok.
    destruct (volume_printable r), (count_printable r), (targets_formattable r);
      try discriminate Hok; repeat split. }
  assert (exists intro p later,
             _fmt_price r = Ok p
             /\ (length intro <= 2)%nat
             /\ _fmt_analysis_sections U r
                = Ok ([repeat_char "=" 60;
                       symbol r ++ u "  —  " ++ str_or (company_name r) (symbol r);
                       repeat_char "=" 60]
                      ++ intro ++ [nl ++ u "── PRICE ──"; p] ++ later
                      ++ [footer nl r]))
    as (intro & p & later & Hp & Hlen & Hsecs).
  { unfold _fmt_analysis_sections.
    destruct (description_lines r) as (d & Hlen & Hd).
    rewrite Hd. cbn [mbind result_bind].
    destruct (_fmt_price_outcome r) as [p Hp]. rewrite Hvol in Hp. rewrite Hp.
    cbn [mbind result_bind].
    destruct (fund_lines_total r) as [fund ->]. cbn [mbind result_bind].
    destruct (analyst_lines_outcome U r) as [analyst ->]. rewrite Hcount, Hfmt.
    cbn [mbind result_bind].
    rewrite news_lines_section. cbn [mbind result_bind].
    exists ((if truthy_str (sector r) || truthy_str (industry r)
             then [u "Sector: " ++ str_or (sector r) (u "N/A")
                   ++ u "  |  Industry: " ++ str_or (industry r) (u "N/A")]
             else []) ++ d), p,
      (match fund with
       | [] => []
       | _ :: _ => (nl ++ u "── FUNDAMENTALS ──") :: fund
       end
       ++ match analyst with
          | [] => []
          | _ :: _ => (nl ++ u "── ANALYST VIEW ──") :: analyst
          end
       ++ news_section r).
    split; [reflexivity|]. split.
    - rewrite length_app.
      destruct (truthy_str (sector r) || truthy_str (industry r)); cbn [length]; lia.
    - f_equal.
      destruct (truthy_str (sector r) || truthy_str (industry r)), fund, analyst;
        rewrite <- ?app_assoc; cbn [app]; rewrite <- ?app_assoc; cbn [app];
        rewrite ?app_nil_r; reflexivity. }
  exists intro, p, later. split; [exact Hp|]. split; [exact Hlen|].
  split; [exact Hsecs|].
  unfold _fmt_analysis. rewrite Hsecs. reflexivity.
Qed.

Lemma sample_does_not_fail : analysis_failure sample = None.
Proof. vm_compute. reflexivity. Qed.

Lemma detailed_layout_embeds_concise_witness :
  exists intro p later,
    _fmt_price sample = Ok p
    /\ (length intro <= 2)%nat
    /\ _fmt_analysis_sections ascii_only sample
       = Ok ([repeat_char "=" 60;
              symbol sample ++ u "  —  "
              ++ str_or (company_name sample) (symbol sample);
              repeat_char "=" 60]
             ++ intro ++ [nl ++ u "── PRICE ──"; p] ++ later
             ++ [footer nl sample]).
Proof.
  destruct (detailed_layout_embeds_concise ascii_only sample sample_does_not_fail)
    as (intro & p & later & Hp & Hlen & Hsecs & _).
  exists intro, p, later. repeat split; assumption.
Defined.

(** X12. The detailed layout fails in three ways only, tried in this order:
    a volume of more than 4300 digits (ValueError in the PRICE block), an
    analyst count of more than 4300 digits shown beside a recommendation
    (ValueError), a mean target tested true with the high or the low target
    absent (TypeError).  It returns a text exactly when none applies, and
    otherwise raises the exception of the first that does. *)
Theorem detailed_layout_returned_iff (U : UnicodeData) (r : ScrapeResponse) :
  ((exists text, _fmt_analysis U r = Ok text) <-> analysis_failure r = None)
  /\ (forall e, _fmt_analysis U r = Raise e <-> analysis_failure r = Some e)
  /\ analysis_failure r
     = (if negb (volume_printable r) then Some int_str_error
        else if negb (count_printable r) then Some int_str_error
        else if negb (targets_formattable r) then Some none_format_error
        else None).
Proof.
  destruct (_fmt_analysis_outcome U r) as [before ->].
  split; [|split; [|reflexivity]].
  - destruct (analysis_failure r); split; eauto; try discriminate.
    intros [text H]. discriminate H.
  - intros e. destruct (analysis_failure r) as [e'|]; split;
      intros H; try discriminate H; congruence.
Qed.

(** ** What the layouts do not depend on *)

Ltac unfold_price_lines :=
  unfold _fmt_price, _fmt_price_lines, volume_ma_parts, day_range_line,
    price_line, week_52_line, price_header, footer;
  cbn [symbol company_name price change change_pct day_low day_high
       prev_close week_52_low week_52_high volume ma_50 ma_200 timestamp].

Lemma with_news_elsewhere (U : UnicodeData) (items : list NewsItem)
    (r : ScrapeResponse) :
  _fmt_price (with_news items r) = _fmt_price r
  /\ fund_lines (with_news items r) = fund_lines r
  /\ analyst_lines U (with_news items r) = analyst_lines U r
  /\ footer nl (with_news items r) = footer nl r.
Proof.
  destruct r. unfold with_news. split; [|split; [|split]].
  - unfold_price_lines. reflexivity.
  - unfold fund_lines.
    cbn [market_cap pe_ratio forward_pe eps book_value price_to_book
         dividend_yield beta roe profit_margin debt_to_equity current_ratio].
    reflexivity.
  - unfold analyst_lines.
    cbn [recommendation analyst_count target_mean_price target_high_price
         target_low_price].
    reflexivity.
  - unfold footer. cbn [timestamp]. reflexivity.
Qed.

(** X13. The detailed layout reads at most the first five news items: the
    outcome for a result is the outcome for the same result with its news
    list cut to five items. *)
Theorem later_news_are_ignored (U : UnicodeData) (r : ScrapeResponse) :
  _fmt_analysis U (with_news (firstn 5 (news r)) r) = _fmt_analysis U r.
Proof.
  assert (forall sections,
             news_lines (with_news (firstn 5 (news r)) r) sections
             = news_lines r sections) as Hnews.
  { intros sections. unfold news_lines, with_news. cbn [news].
    destruct (news r) as [|n ns]; [reflexivity|].
    rewrite firstn_firstn. reflexivity. }
  destruct (with_news_elsewhere U (firstn 5 (news r)) r)
    as (Hprice & Hfund & Hanalyst & Hfooter).
  unfold _fmt_analysis, _fmt_analysis_sections.
  rewrite Hprice, Hfund, Hanalyst, Hfooter.
  cbn [with_news symbol company_name sector industry description].
  destruct (if truthy_str (description r)
            then _ else _) as [s1|]; [|reflexivity].
  cbn [mbind result_bind].
  destruct (_fmt_price r) as [p|]; [|reflexivity]. cbn [mbind result_bind].
  destruct (fund_lines r) as [fund|]; [|reflexivity]. cbn [mbind result_bind].
  destruct (analyst_lines U r) as [analyst|]; [|reflexivity].
  cbn [mbind result_bind].
  rewrite Hnews. reflexivity.
Qed.

(** X14. The concise layout shows nothing but the identity, the price
    fields and the timestamp: sector, industry, description, fundamentals,
    analyst data, news, the success flag and the error have no effect on
    it. *)
Theorem concise_layout_reads_price_fields_only (r : ScrapeResponse) :
  _fmt_price (price_only r) = _fmt_price r.
Proof. destruct r. unfold price_only. unfold_price_lines. reflexivity. Qed.

(** ** Numbers as they are printed *)

Lemma digits_of_uint_no_comma (d : Decimal.uint) :
  without_commas (digits_of_uint d) = digits_of_uint d.
Proof.
  unfold without_commas.
  induction d; cbn [digits_of_uint]; [reflexivity | ..];
    rewrite filter_cons_True by discriminate; rewrite IHd; reflexivity.
Qed.

Lemma digits_of_nonneg_no_comma (z : Z) :
  without_commas (digits_of_nonneg z) = digits_of_nonneg z.
Proof.
  destruct z; cbn [digits_of_nonneg]; try apply digits_of_uint_no_comma;
    vm_compute; reflexivity.
Qed.

Lemma without_commas_rev (s : pystr) :
  without_commas (rev s) = rev (without_commas s).
Proof.
  unfold without_commas. induction s as [|c s IH]; [reflexivity|].
  cbn [rev]. rewrite filter_app, IH.
  destruct (decide (c <> 44%N)) as [Hc|Hc].
  - rewrite (filter_cons_True _ c s Hc), (filter_cons_True _ c [] Hc).
    reflexivity.
  - rewrite (filter_cons_False _ c s Hc), (filter_cons_False _ c [] Hc).
    cbn [rev]. rewrite filter_nil, app_nil_r. reflexivity.
Qed.

Lemma commas_rev_without (n : nat) (s : pystr) :
  without_commas s = s -> without_commas (commas_rev n s) = s.
Proof.
  unfold without_commas. revert n.
  induction s as [|c s IH]; intros n Hs; [reflexivity|].
  destruct (decide (c <> 44%N)) as [Hc|Hc].
  - rewrite (filter_cons_True _ c s Hc) in Hs. injection Hs as Hs.
    cbn [commas_rev].
    destruct n as [|[|[|[|n]]]];
      rewrite ?(filter_cons_False _ 44%N) by (intros H; apply H; reflexivity);
      rewrite (filter_cons_True _ c _ Hc), (IH _ Hs); reflexivity.
  - rewrite (filter_cons_False _ c s Hc) in Hs.
    assert (length (filter (fun c => c <> 44%N) s) <= length s)%nat as Hlen
      by apply length_filter.
    rewrite Hs in Hlen. cbn [length] in Hlen. lia.
Qed.

(** X15. The volume is printed with separators only: taking the commas out
    of the grouped rendering of an integer gives its plain decimal
    rendering, sign included. *)
Theorem grouped_volume_is_the_volume (z : Z) :
  without_commas (format_int_grouped z) = str_of_int z.
Proof.
  unfold format_int_grouped, str_of_int, group_thousands.
  assert (without_commas (sign_str (z <? 0)) = sign_str (z <? 0)) as Hsign
    by (destruct (z <? 0); vm_compute; reflexivity).
  unfold without_commas in *. rewrite filter_app, Hsign. f_equal.
  fold (without_commas (rev (commas_rev 0 (rev (digits_of_nonneg (Z.abs z)))))).
  rewrite without_commas_rev, commas_rev_without.
  - apply rev_involutive.
  - rewrite without_commas_rev, digits_of_nonneg_no_comma. reflexivity.
Qed.

Lemma div_half_even_bound (a b : Z) :
  0 < b ->
  2 * Z.abs (div_half_even a b * b - a) <= b
  /\ (2 * (a mod b) = b -> Z.even (div_half_even a b) = true).
Proof.
  intros Hb. unfold div_half_even.
  pose proof (Z.div_mod a b ltac:(lia)) as Hdiv.
  pose proof (Z.mod_pos_bound a b Hb) as Hmod.
  set (q := a / b) in *. set (r := a mod b) in *.
  destruct (Z.compare_spec (2 * r) b) as [Heq | Hlt | Hgt].
  - destruct (Z.even q) eqn:Hq.
    + split; [|intros _; exact Hq].
      replace (q * b - a) with (- r) by lia. lia.
    + split.
      * replace ((q + 1) * b - a) with (b - r) by lia. lia.
      * intros _. rewrite Z.even_add, Hq. reflexivity.
  - split; [|lia]. replace (q * b - a) with (- r) by lia. lia.
  - split; [|lia]. replace ((q + 1) * b - a) with (b - r) by lia. lia.
Qed.

(** X16. A float that is not an integer multiple of the last decimal is
    printed correctly rounded: for [|x| = m * 2^e] with [e < 0], the integer
    of which [format(x, ".<d>f")] prints the digits is within half a unit of
    [|x| * 10^d], and an exact tie goes to the even neighbour. *)
Theorem printed_amount_is_correctly_rounded (d : nat) (m : positive) (e : Z) :
  e < 0 ->
  2 * Z.abs (scaled d m e * 2 ^ (- e) - Zpos m * 10 ^ Z.of_nat d) <= 2 ^ (- e)
  /\ (2 * ((Zpos m * 10 ^ Z.of_nat d) mod 2 ^ (- e)) = 2 ^ (- e) ->
      Z.even (scaled d m e) = true).
Proof.
  intros He. unfold scaled.
  assert ((0 <=? e) = false) as -> by (apply Z.leb_gt; lia).
  apply div_half_even_bound. apply Z.pow_pos_nonneg; lia.
Qed.

Lemma printed_amount_is_correctly_rounded_witness :
  scaled 2 6485183463413514 (-54) = 36
  /\ 2 * Z.abs (scaled 2 6485183463413514 (-54) * 2 ^ 54
                - 6485183463413514 * 10 ^ 2) <= 2 ^ 54.
Proof.
  split; [vm_compute; reflexivity|].
  exact (proj1 (printed_amount_is_correctly_rounded 2 6485183463413514 (-54)
                  eq_refl)).
Defined.

(** ** Symbols in ASCII *)

Lemma upper_char_ascii (U : UnicodeData) (c : N) :
  (c < 128)%N -> upper_char U c = [ascii_upper c].
Proof.
  intros Hc. unfold upper_char, ascii_upper.
  apply N.ltb_lt in Hc. rewrite Hc.
  destruct ((97 <=? c) && (c <=? 122))%N; reflexivity.
Qed.

Lemma py_upper_ascii (U : UnicodeData) (s : pystr) :
  ascii_text s -> py_upper U s = map ascii_upper s.
Proof.
  unfold py_upper. induction 1 as [|c s Hc Hs IH]; [reflexivity|].
  cbn [flat_map map]. rewrite (upper_char_ascii U c Hc), IH. reflexivity.
Qed.

Lemma ascii_upper_range (c : N) :
  ((97 <=? c) && (c <=? 122))%N = true -> (65 <= ascii_upper c <= 90)%N.
Proof.
  intros H. unfold ascii_upper. rewrite H.
  apply andb_prop in H as [H1%N.leb_le H2%N.leb_le]. lia.
Qed.

Lemma capital_is_no_space (x : N) : (65 <= x <= 90)%N -> py_isspace x = false.
Proof.
  intros Hx. unfold py_isspace.
  assert ((x <=? 13) = false)%N as -> by (apply N.leb_gt; lia).
  assert ((x <=? 32) = false)%N as -> by (apply N.leb_gt; lia).
  assert ((x =? 133) = false)%N as -> by (apply N.eqb_neq; lia).
  assert ((x =? 160) = false)%N as -> by (apply N.eqb_neq; lia).
  assert ((x =? 5760) = false)%N as -> by (apply N.eqb_neq; lia).
  assert ((8192 <=? x) = false)%N as -> by (apply N.leb_gt; lia).
  assert ((x =? 8232) = false)%N as -> by (apply N.eqb_neq; lia).
  assert ((x =? 8233) = false)%N as -> by (apply N.eqb_neq; lia).
  assert ((x =? 8239) = false)%N as -> by (apply N.eqb_neq; lia).
  assert ((x =? 8287) = false)%N as -> by (apply N.eqb_neq; lia).
  assert ((x =? 12288) = false)%N as -> by (apply N.eqb_neq; lia).
  rewrite !andb_false_r. reflexivity.
Qed.

Lemma ascii_upper_no_space (c : N) :
  py_isspace c = false -> py_isspace (ascii_upper c) = false.
Proof.
  intros Hc. destruct ((97 <=? c) && (c <=? 122))%N eqn:Hl.
  - apply capital_is_no_space, ascii_upper_range, Hl.
  - unfold ascii_upper. rewrite Hl. exact Hc.
Qed.

Lemma ascii_upper_idempotent (c : N) : ascii_upper (ascii_upper c) = ascii_upper c.
Proof.
  destruct ((97 <=? c) && (c <=? 122))%N eqn:Hl.
  - pose proof (ascii_upper_range c Hl) as Hr.
    unfold ascii_upper at 1.
    assert ((97 <=? ascii_upper c) = false)%N as -> by (apply N.leb_gt; lia).
    reflexivity.
  - unfold ascii_upper. rewrite Hl, Hl. reflexivity.
Qed.

Lemma ascii_upper_ascii (c : N) : (c < 128)%N -> (ascii_upper c < 128)%N.
Proof.
  intros Hc. unfold ascii_upper.
  destruct ((97 <=? c) && (c <=? 122))%N; lia.
Qed.

Lemma ascii_text_strip (s : pystr) : ascii_text s -> ascii_text (py_strip s).
Proof.
  unfold ascii_text. intros Hs.
  destruct (py_strip_split s) as (a & b & Heq & _).
  rewrite Heq in Hs.
  apply Forall_app in Hs as [_ Hs]. apply Forall_app in Hs as [Hs _]. exact Hs.
Qed.

Lemma trimmed_map_upper (s : pystr) : trimmed s -> trimmed (map ascii_upper s).
Proof.
  intros [Hh Ht]. split; intros c Hc.
  - destruct s as [|x s]; [discriminate Hc|]. cbn in Hc. injection Hc as <-.
    apply ascii_upper_no_space, Hh. reflexivity.
  - rewrite last_rev_head, <- map_rev in Hc.
    destruct (rev s) as [|x t] eqn:Hrev; [discriminate Hc|].
    cbn in Hc. injection Hc as <-.
    apply ascii_upper_no_space, Ht. rewrite last_rev_head, Hrev. reflexivity.
Qed.

Lemma normalised_symbol_is_stable (U : UnicodeData) (s : pystr) :
  ascii_text s ->
  py_upper U (py_strip (py_upper U (py_strip s))) = py_upper U (py_strip s).
Proof.
  intros Hs. pose proof (ascii_text_strip s Hs) as Hstrip.
  rewrite (py_upper_ascii U _ Hstrip).
  destruct (py_strip_split s) as (a & b & _ & _ & _ & Ht).
  rewrite (py_strip_trimmed _ (trimmed_map_upper _ Ht)).
  rewrite py_upper_ascii.
  - rewrite map_map. apply map_ext. intros c. apply ascii_upper_idempotent.
  - unfold ascii_text in *. rewrite Forall_map.
    eapply Forall_impl; [exact Hstrip|]. intros c. apply ascii_upper_ascii.
Qed.

(** X17. Normalising an ASCII symbol is stable: a market tool called with a
    symbol and called with that symbol already trimmed and upper-cased are
    the same coroutine, so the same collaborator call and the same text. *)
Theorem normalised_symbol_gives_same_dispatch (U : UnicodeData) (tool : pystr)
    (arguments : gmap pystr pyval) (s : pystr) :
  tool = u "get_stock_price" \/ tool = u "get_stock_analysis" ->
  ascii_text s ->
  arguments !! u "symbol" = Some (VStr s) ->
  call_tool U tool (<[ u "symbol" := VStr (py_upper U (py_strip s)) ]> arguments)
  = call_tool U tool arguments.
Proof.
  intros Htool Hs Hk.
  pose proof (normalised_symbol_is_stable U s Hs) as Hstable.
  assert ((<[ u "symbol" := VStr (py_upper U (py_strip s)) ]> arguments)
            !! u "symbol" = Some (VStr (py_upper U (py_strip s)))) as Hk'
    by apply lookup_insert_eq.
  destruct (py_strip s) as [|c t] eqn:Hstrip.
  - assert (val_strip (py_or (dict_get arguments (u "symbol")) (VStr [])) = Ok [])
      as Hv by (rewrite (val_strip_or_text _ _ _ Hk), Hstrip; reflexivity).
    assert (val_strip (py_or (dict_get
              (<[ u "symbol" := VStr (py_upper U []) ]> arguments) (u "symbol"))
              (VStr [])) = Ok []) as Hv'
      by (rewrite (val_strip_or_text _ _ _ Hk'); reflexivity).
    destruct Htool as [-> | ->].
    + rewrite (call_tool_price_empty U _ Hv), (call_tool_price_empty U _ Hv').
      reflexivity.
    + rewrite (call_tool_analysis_empty U _ Hv),
        (call_tool_analysis_empty U _ Hv').
      reflexivity.
  - assert (py_strip s <> []) as Hne by (rewrite Hstrip; discriminate).
    rewrite <- Hstrip in *.
    assert (py_strip (py_upper U (py_strip s)) <> []) as Hne'.
    { intros Hempty. rewrite Hempty in Hstable. cbn in Hstable.
      pose proof (py_upper_nonempty U _ Hne) as Hup.
      rewrite <- Hstable in Hup. discriminate Hup. }
    destruct Htool as [-> | ->].
    + rewrite (call_tool_price_symbol U _ _ Hk' Hne'),
        (call_tool_price_symbol U _ _ Hk Hne), Hstable.
      reflexivity.
    + rewrite (call_tool_analysis_symbol U _ _ Hk' Hne'),
        (call_tool_analysis_symbol U _ _ Hk Hne), Hstable.
      reflexivity.
Qed.

Lemma tcs_is_ascii : ascii_text (u " tcs ").
Proof. vm_compute. repeat constructor. Qed.

Lemma normalised_symbol_gives_same_dispatch_witness :
  call_tool ascii_only (u "get_stock_price")
    (<[ u "symbol" := VStr (py_upper ascii_only (py_strip (u " tcs "))) ]>
       {[ u "symbol" := VStr (u " tcs ") ]})
  = call_tool ascii_only (u "get_stock_price") {[ u "symbol" := VStr (u " tcs ") ]}.
Proof.
  exact (normalised_symbol_gives_same_dispatch ascii_only (u "get_stock_price")
           {[ u "symbol" := VStr (u " tcs ") ]} (u " tcs ")
           (or_introl eq_refl) tcs_is_ascii (lookup_singleton_eq _ _)).
Defined.
